(** * Xiaomi Air Fresh fan entity: status polling and command dispatch

    A shallow embedding of the two fan platforms of the repository,

    - [src/custom_components/xiaomi_airfresh/fan.py]
      (class [XiaomiAirFreshDevice], status class [AirFreshDeviceStatus]) and
    - [src/xiaomi_airfresh/fan.py]
      (class [XiaomiAirFreshD], status class [AirFreshDStatus]),

    together with the properties of the poller ([get_status],
    [async_update]) and of the command dispatcher ([_try_command],
    [send_raw_cmd], [async_turn_on], [async_turn_off], [async_set_speed]).

    Python objects are modelled by explicit state passing: a method of the
    entity is a function from a [World] (the entity's fields, the calls sent
    over the wire so far, the records handed to the logger) to an outcome
    (a returned value or a raised exception) and the world it leaves.  State
    changes made before an exception is raised persist, as in Python.  The
    awaits on [hass.async_add_executor_job] run the job to completion; the
    scheduling of the host is outside the model. *)

From Stdlib Require Import ZArith Ascii String List Lia.
From stdpp Require Import base option list strings gmap.
From Equations Require Import Equations.

Local Open Scope string_scope.
Local Open Scope list_scope.
Local Set Warnings "-register-all".

(** ** Python values and the operations the platform applies to them *)

Module Py.

(** The values that travel between the platform and the device client:
    [None], booleans, integers, strings and lists of those (the JSON
    values of a miio reply, without floats and objects). *)
Inductive pyval : Type :=
| VNone : pyval
| VBool (b : bool) : pyval
| VInt (z : Z) : pyval
| VStr (s : string) : pyval
| VList (l : list pyval) : pyval.

(** Python's [==].  A [bool] is an [int] (so [True == 1]); values of
    different kinds are otherwise unequal; lists are compared element by
    element. *)
Fixpoint py_eq (a b : pyval) : bool :=
  match a, b with
  | VNone, VNone => true
  | VBool x, VBool y => Bool.eqb x y
  | VBool x, VInt y => Z.eqb (Z.b2z x) y
  | VInt x, VBool y => Z.eqb x (Z.b2z y)
  | VInt x, VInt y => Z.eqb x y
  | VStr x, VStr y => String.eqb x y
  | VList xs, VList ys =>
      (fix all_eq (xs ys : list pyval) {struct xs} : bool :=
         match xs, ys with
         | [], [] => true
         | x :: xs', y :: ys' => py_eq x y && all_eq xs' ys'
         | _, _ => false
         end) xs ys
  | _, _ => false
  end.

(** Truth value of an object, as tested by [if x:]. *)
Definition truthy (v : pyval) : bool :=
  match v with
  | VNone => false
  | VBool b => b
  | VInt z => negb (Z.eqb z 0)
  | VStr s => negb (String.eqb s "")
  | VList l => match l with [] => false | _ => true end
  end.

(** The exceptions that occur.  [DeviceException] is the one of the miio
    client and carries its message. *)
Inductive exn : Type :=
| DeviceException (msg : string)
| TypeError
| ValueError
| KeyError
| AttributeError.

(** Outcome of a call: a value, or a raised exception. *)
Inductive Result (A : Type) : Type :=
| Ok (a : A)
| Raise (e : exn).
Arguments Ok {A} a.
Arguments Raise {A} e.

(** The one-character strings of a string, which is what iterating over a
    [str] yields. *)
Fixpoint chars (s : string) : list pyval :=
  match s with
  | EmptyString => []
  | String c s' => VStr (String c EmptyString) :: chars s'
  end.

(** [iter(v)]: the items [list.extend] appends; [None], booleans and
    integers are not iterable. *)
Definition py_iter (v : pyval) : Result (list pyval) :=
  match v with
  | VList l => Ok l
  | VStr s => Ok (chars s)
  | _ => Raise TypeError
  end.

(** *** [str.title], on ASCII strings

    A letter that follows a letter is lower-cased, any other letter is
    upper-cased; characters that are not ASCII letters are kept and end
    the word. *)
Definition is_upper (c : ascii) : bool :=
  let n := nat_of_ascii c in Nat.leb 65 n && Nat.leb n 90.
Definition is_lower (c : ascii) : bool :=
  let n := nat_of_ascii c in Nat.leb 97 n && Nat.leb n 122.
Definition is_cased (c : ascii) : bool := is_upper c || is_lower c.
Definition to_lower (c : ascii) : ascii :=
  if is_upper c then ascii_of_nat (nat_of_ascii c + 32) else c.
Definition to_upper (c : ascii) : ascii :=
  if is_lower c then ascii_of_nat (nat_of_ascii c - 32) else c.

Fixpoint title_from (previous_is_cased : bool) (s : string) : string :=
  match s with
  | EmptyString => EmptyString
  | String c s' =>
      String (if previous_is_cased then to_lower c else to_upper c)
             (title_from (is_cased c) s')
  end.

Definition title (s : string) : string := title_from false s.

(** [dict(pairs)]: later pairs overwrite earlier ones. *)
Definition dict (pairs : list (string * pyval)) : gmap string pyval :=
  foldl (fun m kv => <[kv.1 := kv.2]> m) ∅ pairs.

(** [d.update(pairs)]. *)
Definition dict_update (d : gmap string pyval)
    (pairs : list (string * pyval)) : gmap string pyval :=
  foldl (fun m kv => <[kv.1 := kv.2]> m) d pairs.

(** [zip(xs, ys)] stops at the shorter of the two. *)
Fixpoint zip {A B} (xs : list A) (ys : list B) : list (A * B) :=
  match xs, ys with
  | x :: xs', y :: ys' => (x, y) :: zip xs' ys'
  | _, _ => []
  end.

End Py.
Export Py.

(** ** The operation modes

    [class OperationMode(Enum)], the same in both files. *)

Inductive OperationMode : Type := Off | Auto | Sleep | Favourite.

(** [member.value]: the lower-case wire token. *)
Definition OperationMode_value (m : OperationMode) : string :=
  match m with
  | Off => "off"
  | Auto => "auto"
  | Sleep => "sleep"
  | Favourite => "favourite"
  end.

(** [member.name]. *)
Definition OperationMode_name (m : OperationMode) : string :=
  match m with
  | Off => "Off"
  | Auto => "Auto"
  | Sleep => "Sleep"
  | Favourite => "Favourite"
  end.

Definition OperationMode_members : list OperationMode :=
  [Off; Auto; Sleep; Favourite].

(** [OperationMode[name]]: lookup by member name, [KeyError] when there is
    no such member. *)
Definition OperationMode_getitem (name : string) : Result OperationMode :=
  match List.find (fun m => String.eqb (OperationMode_name m) name)
                  OperationMode_members with
  | Some m => Ok m
  | None => Raise KeyError
  end.

(** [OperationMode(value)]: lookup by value, [ValueError] when no member
    has that value (in particular for [None]). *)
Definition OperationMode_call (value : pyval) : Result OperationMode :=
  match List.find (fun m => py_eq (VStr (OperationMode_value m)) value)
                  OperationMode_members with
  | Some m => Ok m
  | None => Raise ValueError
  end.

(** ** The world a method runs in *)

(** The mutable fields of the entity ([self._available], [self._state],
    [self._state_attrs], [self._skip_update]).  [_state] is [None] until the
    first poll or optimistic update. *)
Record Entity : Type := mkEntity {
  _available : bool;
  _state : option bool;
  _state_attrs : gmap string pyval;
  _skip_update : bool
}.

(** A call [self._device.send(command, parameters)]. *)
Definition Call : Type := string * pyval.

(** The status container: [AirFreshDeviceStatus] / [AirFreshDStatus] wrap
    the [defaultdict(lambda: None, ...)] handed to them. *)
Record Status : Type := mkStatus { data : gmap string pyval }.

(** What is handed to [_LOGGER]: level, message template, arguments. *)
Inductive LogLevel : Type := DEBUG | ERROR.

Inductive LogArg : Type :=
| LogVal (v : pyval)
| LogExn (e : exn)
| LogStatus (s : Status).

Record LogRecord : Type := mkLog {
  log_level : LogLevel;
  log_template : string;
  log_args : list LogArg
}.

Record World : Type := mkWorld {
  entity : Entity;
  wire : list Call;
  journal : list LogRecord
}.

(** The device client.  Its answer to a call may depend on every call made
    before (the first argument is the history, oldest first); it answers
    with the [result] of the reply or raises.  Every statement below holds
    for all such functions and for all histories, and constrains the device
    only at the calls the method actually makes. *)
Definition Transport : Type := list Call -> Call -> Result pyval.

(** A method: runs in a world, gives an outcome and the world it leaves. *)
Definition M (A : Type) : Type := World -> Result A * World.

Definition ret {A} (a : A) : M A := fun w => (Ok a, w).

(** Sequencing: an exception raised by the first part skips the rest. *)
Definition bind {A B} (m : M A) (k : A -> M B) : M B := fun w =>
  match m w with
  | (Ok a, w') => k a w'
  | (Raise e, w') => (Raise e, w')
  end.

Notation "x <- m ;; k" := (bind m (fun x => k))
  (at level 100, m at next level, right associativity).
Notation "m ;; k" := (bind m (fun _ => k))
  (at level 100, right associativity).

(** An outcome computed without touching the world. *)
Definition lift {A} (r : Result A) : M A := fun w => (r, w).

(** [try: body except DeviceException as exc: handler]: any other exception
    passes through. *)
Definition try_except_DeviceException {A} (body : M A)
    (handler : exn -> M A) : M A := fun w =>
  match body w with
  | (Raise (DeviceException msg), w') => handler (DeviceException msg) w'
  | other => other
  end.

Definition with_entity (f : Entity -> Entity) : M unit := fun w =>
  (Ok tt, mkWorld (f (entity w)) (wire w) (journal w)).

Definition set_available (b : bool) : M unit :=
  with_entity (fun e => mkEntity b (_state e) (_state_attrs e) (_skip_update e)).

Definition set_state (s : option bool) : M unit :=
  with_entity (fun e =>
    mkEntity (_available e) s (_state_attrs e) (_skip_update e)).

Definition set_skip_update (b : bool) : M unit :=
  with_entity (fun e => mkEntity (_available e) (_state e) (_state_attrs e) b).

Definition update_state_attrs (pairs : list (string * pyval)) : M unit :=
  with_entity (fun e =>
    mkEntity (_available e) (_state e)
             (dict_update (_state_attrs e) pairs) (_skip_update e)).

Definition get_skip_update : M bool := fun w => (Ok (_skip_update (entity w)), w).

Definition logger (l : LogLevel) (template : string) (args : list LogArg)
  : M unit := fun w =>
  (Ok tt, mkWorld (entity w) (wire w) (journal w ++ [mkLog l template args])).

(** A comprehension whose element expression may raise: elements are
    evaluated in order, the first exception ends the evaluation. *)
Fixpoint comprehension {A B} (f : A -> M B) (l : list A) : M (list B) :=
  match l with
  | [] => ret []
  | a :: l' => b <- f a ;; bs <- comprehension f l' ;; ret (b :: bs)
  end.

(** ** The code shared by the two platforms

    [get_status], [async_update], [_try_command] and [send_raw_cmd] read the
    same in both files, up to the list of polled properties and the table
    [AVAILABLE_ATTRIBUTES_AIRFRESH]; they are stated once, over these. *)

Module Fan.

Definition SUCCESS : pyval := VList [VStr "ok"].

Section Platform.

(** The device client held in [self._device]. *)
Variable device : Transport.

(** The local list [properties] of [get_status], and the items of
    [AVAILABLE_ATTRIBUTES_AIRFRESH] in their order. *)
Variable properties : list string.
Variable AVAILABLE_ATTRIBUTES_AIRFRESH : list (string * string).

(** [self._device.send(command, parameters)]: the call goes over the wire,
    whatever its outcome. *)
Definition send (command : string) (parameters : pyval) : M pyval := fun w =>
  (device (wire w) (command, parameters),
   mkWorld (entity w) (wire w ++ [(command, parameters)]) (journal w)).

(** *** The status container *)

(** [self.data[name]] on the [defaultdict]: [None] for a missing name (the
    entry such a read adds to the dictionary is never looked at). *)
Definition data_get (state : Status) (name : string) : pyval :=
  default VNone (data state !! name).

Definition power (state : Status) : pyval := data_get state "power".

(** [self.power == True]. *)
Definition is_on (state : Status) : bool := py_eq (power state) (VBool true).

(** [OperationMode(self.data["mode"])]. *)
Definition mode (state : Status) : Result OperationMode :=
  OperationMode_call (data_get state "mode").

(** What [getattr] finds: a plain value, or a member of the enumeration. *)
Inductive attr_value : Type :=
| Plain (v : pyval)
| Member (m : OperationMode).

(** [getattr(state, attribute)] for the names of the polled properties:
    [mode] goes through the enumeration, [is_on] through [power], every
    other property reads [self.data]. *)
Definition getattr (state : Status) (attribute : string) : Result attr_value :=
  if String.eqb attribute "mode" then
    match mode state with
    | Ok m => Ok (Member m)
    | Raise e => Raise e
    end
  else if String.eqb attribute "is_on" then Ok (Plain (VBool (is_on state)))
  else if bool_decide (attribute ∈ properties) then
    Ok (Plain (data_get state attribute))
  else Raise AttributeError.

Definition _extract_value_from_attribute (state : Status) (attribute : string)
  : Result pyval :=
  match getattr state attribute with
  | Ok (Member m) => Ok (VStr (OperationMode_value m))
  | Ok (Plain v) => Ok v
  | Raise e => Raise e
  end.

(** *** The poller *)

Definition get_prop (names : list string) : Call :=
  ("get_prop", VList (VStr <$> names)).

(** The loop [while _props: values.extend(send("get_prop", _props[:4]));
    _props[:] = _props[4:]]. *)
Equations? get_status_loop (_props : list string) (values : list pyval)
    (w : World) : Result (list pyval) * World by wf (length _props) lt :=
get_status_loop [] values w := (Ok values, w);
get_status_loop (p :: ps) values w
  with send "get_prop" (VList (VStr <$> take 4 (p :: ps))) w := {
  | (Raise e, w1) := (Raise e, w1);
  | (Ok reply, w1) with py_iter reply := {
    | Raise e := (Raise e, w1);
    | Ok items := get_status_loop (drop 4 (p :: ps)) (values ++ items) w1 } }.
Proof. simpl. rewrite length_drop. lia. Qed.

Definition get_status : M Status :=
  values <- get_status_loop properties [] ;;
  let properties_count := length properties in
  let values_count := length values in
  (if negb (Nat.eqb properties_count values_count) then
     logger DEBUG
       "Count (%s) of requested properties does not match the count (%s) of received values."
       [LogVal (VInt (Z.of_nat properties_count));
        LogVal (VInt (Z.of_nat values_count))]
   else ret tt) ;;
  ret (mkStatus (dict (zip properties values))).

Definition async_update : M unit :=
  skip <- get_skip_update ;;
  if skip then
    set_skip_update false
  else
    try_except_DeviceException
      (state <- get_status ;;
       logger DEBUG "Got new state: %s" [LogStatus state] ;;
       set_available true ;;
       set_state (Some (is_on state)) ;;
       attrs <- comprehension
                 (fun kv => v <- lift (_extract_value_from_attribute state kv.2) ;;
                            ret (kv.1, v))
                 AVAILABLE_ATTRIBUTES_AIRFRESH ;;
       update_state_attrs attrs)
      (fun ex =>
         set_available false ;;
         logger ERROR "Got exception while fetching the state: %s" [LogExn ex]).

(** *** The command dispatcher *)

Definition _try_command (mask_error : string) (command : string)
    (parameters : pyval) : M bool :=
  try_except_DeviceException
    (result <- send command parameters ;;
     logger DEBUG "Response received from miio device: %s" [LogVal result] ;;
     ret (py_eq result SUCCESS))
    (fun exc =>
       logger ERROR mask_error [LogExn exc] ;;
       set_available false ;;
       ret false).

Definition send_raw_cmd (mask_error : string) (command : string)
    (parameters : pyval) : M bool :=
  logger DEBUG "sending cmd %s %s" [LogVal (VStr command); LogVal parameters] ;;
  result <- _try_command mask_error command parameters ;;
  ret result.

End Platform.

(** [speed: str = None]; [if speed:] is false for [None] and for the empty
    string. *)
Definition given (speed : option string) : option string :=
  match speed with
  | Some s => if truthy (VStr s) then Some s else None
  | None => None
  end.

End Fan.

(** The command methods the host calls: those of the fan entity, and those
    the platform registers as services. *)
Inductive FanCall : Type :=
| TurnOn (speed : option string)
| TurnOff
| SetSpeed (speed : string).

Inductive ServiceCall : Type :=
| SetPtcOn
| SetPtcOff
| SetFavouriteSpeed (speed : pyval)
| SetSoundOn
| SetSoundOff
| SetDisplayOn
| SetDisplayOff
| SetFilterReset.

(** ** [src/xiaomi_airfresh/fan.py]: class [XiaomiAirFreshD] *)

Module XiaomiAirFreshD.

Definition properties : list string := ["power"; "pm25"; "co2"; "mode"].

Definition AVAILABLE_ATTRIBUTES_AIRFRESH : list (string * string) :=
  [("pm25", "pm25"); ("co2", "co2"); ("mode", "mode")].

Section Methods.

(** [SUPPORT_SET_SPEED] is a constant of [homeassistant.components.fan];
    the platform only assumes it is an integer. *)
Variable SUPPORT_SET_SPEED : Z.
Variable device : Transport.

Definition supported_features : Z := SUPPORT_SET_SPEED.

Definition get_status : M Status := Fan.get_status device properties.

Definition async_update : M unit :=
  Fan.async_update device properties AVAILABLE_ATTRIBUTES_AIRFRESH.

Definition _try_command := Fan._try_command device.

Definition send_raw_cmd := Fan.send_raw_cmd device.

Definition async_turn_off : M unit :=
  result <- send_raw_cmd "Turning the miio device off failed."
                         "set_power" (VList [VBool false]) ;;
  if result then
    set_state (Some false) ;;
    set_skip_update true
  else ret tt.

(** Returns [None] on every path. *)
Definition async_set_speed (speed : string) : M unit :=
  if Z.eqb (Z.land supported_features SUPPORT_SET_SPEED) 0 then ret tt
  else
    logger DEBUG "Setting the operation mode to: %s" [LogVal (VStr speed)] ;;
    m <- lift (OperationMode_getitem (title speed)) ;;
    if String.eqb (OperationMode_value m) "off" then
      async_turn_off
    else
      m' <- lift (OperationMode_getitem (title speed)) ;;
      send_raw_cmd "Setting operation mode of the miio device failed."
                   "set_mode" (VStr (OperationMode_value m')) ;;
      ret tt.

Definition async_turn_on (speed : option string) : M unit :=
  result <- match Fan.given speed with
            | Some s => async_set_speed s ;; ret VNone
            | None =>
                b <- send_raw_cmd "Turning the miio device on failed."
                                  "set_power" (VList [VBool true]) ;;
                ret (VBool b)
            end ;;
  if truthy result then
    set_state (Some true) ;;
    set_skip_update true
  else ret tt.

(** What the host can ask of the entity besides a poll. *)
Definition call (c : FanCall) : M unit :=
  match c with
  | TurnOn speed => async_turn_on speed
  | TurnOff => async_turn_off
  | SetSpeed speed => async_set_speed speed
  end.

End Methods.

End XiaomiAirFreshD.

(** ** [src/custom_components/xiaomi_airfresh/fan.py]:
       class [XiaomiAirFreshDevice] *)

Module XiaomiAirFreshDevice.

Definition properties : list string :=
  ["power"; "pm25"; "co2"; "temperature_outside"; "favourite_speed";
   "filter_rate"; "filter_day"; "control_speed"; "ptc_on"; "ptc_status";
   "child_lock"; "sound"; "display"; "mode"].

Definition AVAILABLE_ATTRIBUTES_AIRFRESH : list (string * string) :=
  [("pm25", "pm25"); ("co2", "co2"); ("mode", "mode");
   ("temperature_outside", "temperature_outside");
   ("favourite_speed", "favourite_speed"); ("filter_rate", "filter_rate");
   ("filter_day", "filter_day"); ("control_speed", "control_speed");
   ("ptc_on", "ptc_on"); ("ptc_status", "ptc_status");
   ("child_lock", "child_lock"); ("sound", "sound"); ("display", "display")].

Section Methods.

Variable SUPPORT_SET_SPEED : Z.
Variable device : Transport.

Definition get_status : M Status := Fan.get_status device properties.

Definition async_update : M unit :=
  Fan.async_update device properties AVAILABLE_ATTRIBUTES_AIRFRESH.

Definition _try_command := Fan._try_command device.

Definition send_raw_cmd := Fan.send_raw_cmd device.

Definition async_turn_off : M unit :=
  send_raw_cmd "Turning the miio device off failed."
               "set_power" (VList [VBool false]) ;;
  ret tt.

Definition async_set_speed (speed : string) : M unit :=
  if Z.eqb SUPPORT_SET_SPEED 0 then ret tt
  else
    logger DEBUG "Setting the operation mode to: %s" [LogVal (VStr speed)] ;;
    m <- lift (OperationMode_getitem (title speed)) ;;
    if String.eqb (OperationMode_value m) "off" then
      async_turn_off
    else
      m' <- lift (OperationMode_getitem (title speed)) ;;
      send_raw_cmd "Setting operation mode of the miio device failed."
                   "set_mode" (VStr (OperationMode_value m')) ;;
      ret tt.

Definition async_turn_on (speed : option string) : M unit :=
  match Fan.given speed with
  | Some s => async_set_speed s
  | None =>
      send_raw_cmd "Turning the miio device on failed."
                   "set_power" (VList [VBool true]) ;;
      ret tt
  end.

Definition async_set_ptc_on : M unit :=
  logger DEBUG "Setting the ptc to on" [] ;;
  send_raw_cmd "Turning the ptc of the miio device on failed."
               "set_ptc_on" (VList [VBool true]) ;;
  ret tt.

Definition async_set_ptc_off : M unit :=
  logger DEBUG "Setting the ptc to off" [] ;;
  send_raw_cmd "Turning the ptc of the miio device off failed."
               "set_ptc_on" (VList [VBool false]) ;;
  ret tt.

Definition async_set_favourite_speed (speed : pyval) : M unit :=
  logger DEBUG "Setting the favourite speed to: %s" [LogVal speed] ;;
  send_raw_cmd "Setting favourite speed of the miio device failed."
               "set_favourite_speed" (VList [speed]) ;;
  ret tt.

Definition async_set_sound_on : M unit :=
  logger DEBUG "Setting the sound to on" [] ;;
  send_raw_cmd "Turning the sound of the miio device on failed."
               "set_sound_on" (VList [VBool true]) ;;
  ret tt.

Definition async_set_sound_off : M unit :=
  logger DEBUG "Setting the sound to off" [] ;;
  send_raw_cmd "Turning the sound of the miio device off failed."
               "set_sound_on" (VList [VBool false]) ;;
  ret tt.

Definition async_set_display_on : M unit :=
  logger DEBUG "Setting the display to on" [] ;;
  send_raw_cmd "Turning the display of the miio device on failed."
               "set_display_on" (VList [VBool true]) ;;
  ret tt.

Definition async_set_display_off : M unit :=
  logger DEBUG "Setting the display to off" [] ;;
  send_raw_cmd "Turning the display of the miio device off failed."
               "set_display_on" (VList [VBool false]) ;;
  ret tt.

Definition async_set_filter_reset : M unit :=
  logger DEBUG "Setting the filter reset" [] ;;
  send_raw_cmd "Reset filter on miio device failed."
               "set_filter_reset" (VList [VBool true]) ;;
  ret tt.

(** The methods named in [SERVICE_TO_METHOD]. *)
Definition service (c : ServiceCall) : M unit :=
  match c with
  | SetPtcOn => async_set_ptc_on
  | SetPtcOff => async_set_ptc_off
  | SetFavouriteSpeed speed => async_set_favourite_speed speed
  | SetSoundOn => async_set_sound_on
  | SetSoundOff => async_set_sound_off
  | SetDisplayOn => async_set_display_on
  | SetDisplayOff => async_set_display_off
  | SetFilterReset => async_set_filter_reset
  end.

Definition call (c : FanCall + ServiceCall) : M unit :=
  match c with
  | inl (TurnOn speed) => async_turn_on speed
  | inl TurnOff => async_turn_off
  | inl (SetSpeed speed) => async_set_speed speed
  | inr c' => service c'
  end.

End Methods.

End XiaomiAirFreshDevice.

(** ** Vocabulary of the statements *)

(** The successive slices [_props[:4]] of a list that is cut down by
    [_props[4:]] until it is empty. *)
Equations? batches (names : list string) : list (list string)
    by wf (length names) lt :=
batches [] := [];
batches (p :: ps) := take 4 (p :: ps) :: batches (drop 4 (p :: ps)).
Proof. simpl. rewrite length_drop. lia. Qed.

(** What the device answers to a sequence of calls made one after the other,
    starting from a given history. *)
Fixpoint answers (device : Transport) (history : list Call)
    (calls : list Call) : list (Result pyval) :=
  match calls with
  | [] => []
  | c :: calls' => device history c :: answers device (history ++ [c]) calls'
  end.

(** The answer is a value, and iterating over it gives [items]. *)
Definition delivers (answer : Result pyval) (items : list pyval) : Prop :=
  exists v, answer = Ok v /\ py_iter v = Ok items.

(** The answer is a device exception. *)
Definition device_error (answer : Result pyval) (msg : string) : Prop :=
  answer = Raise (DeviceException msg).

(** One call per batch, in order: the poll loop, unrolled over the batches
    it goes through. *)
Fixpoint poll (device : Transport) (bs : list (list string))
    (values : list pyval) (w : World) : Result (list pyval) * World :=
  match bs with
  | [] => (Ok values, w)
  | b :: bs' =>
      match Fan.send device "get_prop" (VList (VStr <$> b)) w with
      | (Raise e, w1) => (Raise e, w1)
      | (Ok reply, w1) =>
          match py_iter reply with
          | Raise e => (Raise e, w1)
          | Ok items => poll device bs' (values ++ items) w1
          end
      end
  end.

(** Availability can be lost but not gained by running [m]. *)
Definition never_restores {B} (m : M B) : Prop :=
  forall w, _available (entity (snd (m w))) = true ->
            _available (entity w) = true.

(** Running [m] leaves a field of the entity as it was. *)
Definition keeps {A B} (field : Entity -> A) (m : M B) : Prop :=
  forall w, field (entity (snd (m w))) = field (entity w).

(** The world a skipped poll leaves: only the skip flag is cleared. *)
Definition flag_cleared (w : World) : World :=
  mkWorld (mkEntity (_available (entity w)) (_state (entity w))
                    (_state_attrs (entity w)) false)
          (wire w) (journal w).

(** *** Devices and worlds used as concrete inputs *)

(** A device that gives the same answer to every call. *)
Definition always (answer : Result pyval) : Transport := fun _ _ => answer.

(** A device that answers its n-th call with the n-th entry of a script,
    and raises once the script is exhausted. *)
Definition scripted (script : list (Result pyval)) : Transport :=
  fun history _ =>
    nth (length history) script (Raise (DeviceException "timeout")).

(** The entity as [__init__] leaves it, for a given attribute table. *)
Definition initial_entity (model : string) (table : list (string * string))
  : Entity :=
  mkEntity false None
    (dict_update (dict [("model", VStr model)])
                 ((fun kv => (kv.1, VNone)) <$> table))
    false.

Definition fresh_D : World :=
  mkWorld (initial_entity "dmaker.airfresh.a1"
             XiaomiAirFreshD.AVAILABLE_ATTRIBUTES_AIRFRESH) [] [].

Definition fresh_Device : World :=
  mkWorld (initial_entity "dmaker.airfresh.a1"
             XiaomiAirFreshDevice.AVAILABLE_ATTRIBUTES_AIRFRESH) [] [].

(** A world in which the last poll succeeded: available and switched on. *)
Definition polled (w : World) : World :=
  mkWorld (mkEntity true (Some true) (_state_attrs (entity w)) false)
          (wire w) (journal w).

(** ** The rest of the entity: read-only properties, runs of operations,
       platform setup *)

(** [OPERATION_MODES_AIRFRESH], which [speed_list] returns. *)
Definition OPERATION_MODES_AIRFRESH : list string :=
  ["Off"; "Auto"; "Sleep"; "Favourite"].

(** The property [speed], the same in both classes:
    [if self._state: return OperationMode(self._state_attrs[ATTR_MODE]).name]
    and [None] otherwise.  [_state_attrs] is a plain dictionary, so a
    missing key is a [KeyError]. *)
Definition speed (e : Entity) : Result (option string) :=
  match _state e with
  | Some true =>
      match _state_attrs e !! "mode" with
      | None => Raise KeyError
      | Some value =>
          match OperationMode_call value with
          | Ok m => Ok (Some (OperationMode_name m))
          | Raise ex => Raise ex
          end
      end
  | _ => Ok None
  end.

(** The call a service method of [XiaomiAirFreshDevice] hands to
    [send_raw_cmd]. *)
Definition service_command (c : ServiceCall) : Call :=
  match c with
  | SetPtcOn => ("set_ptc_on", VList [VBool true])
  | SetPtcOff => ("set_ptc_on", VList [VBool false])
  | SetFavouriteSpeed speed => ("set_favourite_speed", VList [speed])
  | SetSoundOn => ("set_sound_on", VList [VBool true])
  | SetSoundOff => ("set_sound_on", VList [VBool false])
  | SetDisplayOn => ("set_display_on", VList [VBool true])
  | SetDisplayOff => ("set_display_on", VList [VBool false])
  | SetFilterReset => ("set_filter_reset", VList [VBool true])
  end.

(** The call [async_set_speed] ends in, for the member its argument names. *)
Definition speed_command (m : OperationMode) : Call :=
  match m with
  | Off => ("set_power", VList [VBool false])
  | _ => ("set_mode", VStr (OperationMode_value m))
  end.

(** What the host does with an entity, over time: it polls it and calls its
    command methods, one at a time.  An operation that raises does not end
    the entity: the host goes on with the state the operation left. *)
Inductive Op (C : Type) : Type :=
| Poll
| Command (c : C).
Arguments Poll {C}.
Arguments Command {C} c.

Definition Device_step (S : Z) (device : Transport)
    (op : Op (FanCall + ServiceCall)) : M unit :=
  match op with
  | Poll => XiaomiAirFreshDevice.async_update device
  | Command c => XiaomiAirFreshDevice.call S device c
  end.

Definition D_step (S : Z) (device : Transport) (op : Op FanCall) : M unit :=
  match op with
  | Poll => XiaomiAirFreshD.async_update device
  | Command c => XiaomiAirFreshD.call S device c
  end.

Fixpoint run_ops {C} (step : Op C -> M unit) (ops : list (Op C)) (w : World)
  : World :=
  match ops with
  | [] => w
  | op :: ops' => run_ops step ops' (snd (step op w))
  end.

(** *** [async_setup_platform]

    The configuration has passed [PLATFORM_SCHEMA]: host, token and name
    are strings, the model may be absent.  Of [hass] the function touches
    [hass.data[DATA_KEY]] (the devices by host), the entities handed to
    [async_add_entities] and, in the custom component, the registered
    services. *)

Record Config : Type := mkConfig {
  CONF_HOST : string;
  CONF_TOKEN : string;
  CONF_NAME : string;
  CONF_MODEL : option string
}.

(** A device object as the constructor leaves it; [AirFresh(host, token)]
    is kept as the two strings it was built from. *)
Record Device : Type := mkDevice {
  _name : string;
  _device : string * string;
  _model : string;
  _unique_id : option string;
  fields : Entity
}.

Inductive SetupLog : Type :=
| LogInfo (template : string) (args : list string)
| LogError (template : string) (args : list string).

(** The arguments a record hands to the formatter. *)
Definition setup_log_args (r : SetupLog) : list string :=
  match r with
  | LogInfo _ args => args
  | LogError _ args => args
  end.

(** [hass_data] is [hass.data.get(DATA_KEY)]; [added_entities] and
    [registered_services] are the calls made to [async_add_entities] (the
    entity and [update_before_add]) and to [hass.services.async_register]
    (domain and service name), in order. *)
Record Hass : Type := mkHass {
  hass_data : option (gmap string Device);
  added_entities : list (Device * bool);
  registered_services : list (string * string);
  setup_log : list SetupLog
}.

(** The names of [SERVICE_TO_METHOD], in its order. *)
Definition SERVICE_TO_METHOD : list (string * string) :=
  [("airfresh_set_ptc_on", "async_set_ptc_on");
   ("airfresh_set_ptc_off", "async_set_ptc_off");
   ("airfresh_set_favourite_speed", "async_set_favourite_speed");
   ("airfresh_set_sound_on", "async_set_sound_on");
   ("airfresh_set_sound_off", "async_set_sound_off");
   ("airfresh_set_display_on", "async_set_display_on");
   ("airfresh_set_display_off", "async_set_display_off");
   ("airfresh_set_filter_reset", "async_set_filter_reset")].

(** [__init__] of both entity classes. *)
Definition new_device (table : list (string * string))
    (name : string) (client : string * string) (model : string)
    (unique_id : option string) : Device :=
  mkDevice name client model unique_id (initial_entity model table).

(** [async_setup_platform], over what distinguishes the two files: the
    attribute table of the class it instantiates and the services it
    registers on success (none in [src/xiaomi_airfresh/fan.py]); the
    service handler itself is not part of this model.  The
    result is [Some false] for [return False] and [None] for falling off
    the end. *)
Definition async_setup_platform (table : list (string * string))
    (to_register : list (string * string))
    (hass : Hass) (config : Config) : option bool * Hass :=
  let data := default ∅ (hass_data hass) in
  let host := CONF_HOST config in
  let token := CONF_TOKEN config in
  let name := CONF_NAME config in
  let log1 :=
    setup_log hass ++
    [LogInfo "Initializing with host %s (token %s...)"
          [host; String.substring 0 5 token]] in
  let unique_id : option string := None in
  let model := default "dmaker.airfresh.a1" (CONF_MODEL config) in
  if String.prefix "dmaker.airfresh.a1" model then
    let device := new_device table name (host, token) model unique_id in
    (None,
     mkHass (Some (<[host := device]> data))
            (added_entities hass ++ [(device, true)])
            (registered_services hass ++ to_register)
            log1)
  else
    (Some false,
     mkHass (Some data) (added_entities hass) (registered_services hass)
            (log1 ++
             [LogError "This custom components only support Xiaomi Mi Air Purifier A1 (MJXFJ-150-A1)and provide the following data: %s"
                     [model]])).

(** [DOMAIN] is a constant of [homeassistant.components.fan]. *)
Definition Device_setup (DOMAIN : string)
  : Hass -> Config -> option bool * Hass :=
  async_setup_platform XiaomiAirFreshDevice.AVAILABLE_ATTRIBUTES_AIRFRESH
                       ((fun kv => (DOMAIN, kv.1)) <$> SERVICE_TO_METHOD).

Definition D_setup : Hass -> Config -> option bool * Hass :=
  async_setup_platform XiaomiAirFreshD.AVAILABLE_ATTRIBUTES_AIRFRESH [].

(** * Properties *)

(** ** Python helpers *)

Lemma title_examples :
  title "off" = "Off" /\ title "OFF" = "Off" /\ title "favourite" = "Favourite"
  /\ title "aUTO mode" = "Auto Mode" /\ title "sleep1x" = "Sleep1X".
Proof. repeat split; reflexivity. Qed.

(** Only the one-element list holding the string [ok] compares equal to
    [SUCCESS]. *)
Lemma py_eq_SUCCESS (r : pyval) : py_eq r Fan.SUCCESS = true <-> r = Fan.SUCCESS.
Proof.
  split.
  - unfold Fan.SUCCESS.
    destruct r as [| b | z | s | l]; simpl; try discriminate.
    destruct l as [| x [| y l']]; try discriminate.
    + destruct x as [| b | z | s | l]; simpl; try discriminate.
      rewrite Bool.andb_true_r. intros H%String.eqb_eq. now subst.
    + rewrite Bool.andb_false_r. discriminate.
  - intros ->. reflexivity.
Qed.

(** ** The batches of a poll *)

Lemma batches_step (names : list string) :
  batches names =
  match names with
  | [] => []
  | _ => take 4 names :: batches (drop 4 names)
  end.
Proof. destruct names; now simp batches. Qed.

Lemma batches_concat (names : list string) : concat (batches names) = names.
Proof.
  induction names as [names IH] using (induction_ltof1 _ (@length string)).
  rewrite batches_step. destruct names as [| p ps]; [reflexivity |].
  cbn [concat]. rewrite IH.
  - apply take_drop.
  - unfold ltof. rewrite length_drop. simpl. lia.
Qed.

Lemma batches_at_most_4 (names : list string) :
  Forall (fun b => length b <= 4) (batches names).
Proof.
  induction names as [names IH] using (induction_ltof1 _ (@length string)).
  rewrite batches_step. destruct names as [| p ps]; [constructor |].
  constructor.
  - rewrite length_take. lia.
  - apply IH. unfold ltof. rewrite length_drop. simpl. lia.
Qed.

Lemma batches_length (names : list string) :
  length (batches names) = (length names + 3) / 4.
Proof.
  induction names as [names IH] using (induction_ltof1 _ (@length string)).
  rewrite batches_step. destruct names as [| p ps]; [reflexivity |].
  cbn [length]. rewrite IH.
  - rewrite length_drop. cbn [length].
    pose proof (Nat.div_mod_eq (S (length ps) - 4 + 3) 4) as H1.
    pose proof (Nat.mod_upper_bound (S (length ps) - 4 + 3) 4) as H2.
    pose proof (Nat.div_mod_eq (S (length ps) + 3) 4) as H3.
    pose proof (Nat.mod_upper_bound (S (length ps) + 3) 4) as H4.
    lia.
  - unfold ltof. rewrite length_drop. simpl. lia.
Qed.

(** The quotient [(n + 3) / 4] is the ceiling of [n / 4]. *)
Lemma ceil_div_4 (n : nat) :
  4 * ((n + 3) / 4) < n + 4 /\ n <= 4 * ((n + 3) / 4).
Proof.
  pose proof (Nat.div_mod_eq (n + 3) 4) as H.
  pose proof (Nat.mod_upper_bound (n + 3) 4 ltac:(lia)) as Hm. lia.
Qed.

(** ** The poll loop goes through the batches *)

Lemma get_status_loop_step device (_props : list string) values w :
  Fan.get_status_loop device _props values w =
  match _props with
  | [] => (Ok values, w)
  | _ =>
      match Fan.send device "get_prop" (VList (VStr <$> take 4 _props)) w with
      | (Raise e, w1) => (Raise e, w1)
      | (Ok reply, w1) =>
          match py_iter reply with
          | Raise e => (Raise e, w1)
          | Ok items =>
              Fan.get_status_loop device (drop 4 _props) (values ++ items) w1
          end
      end
  end.
Proof.
  destruct _props as [| p ps]; simp get_status_loop; [reflexivity |].
  destruct (Fan.send device "get_prop" (VList (VStr <$> take 4 (p :: ps))) w)
    as [[reply | e] w1] eqn:E; simpl; [| reflexivity].
  destruct (py_iter reply); reflexivity.
Qed.

Lemma get_status_loop_poll device (_props : list string) :
  forall values w,
    Fan.get_status_loop device _props values w
    = poll device (batches _props) values w.
Proof.
  induction _props as [names IH] using (induction_ltof1 _ (@length string)).
  intros values w.
  rewrite get_status_loop_step, batches_step.
  destruct names as [| p ps]; [reflexivity |].
  cbn [poll].
  destruct (Fan.send device "get_prop" (VList (VStr <$> take 4 (p :: ps))) w)
    as [[reply | e] w1]; [| reflexivity].
  destruct (py_iter reply) as [items | e]; [| reflexivity].
  apply IH. unfold ltof. rewrite length_drop. simpl. lia.
Qed.

Lemma poll_delivers device (bs : list (list string)) :
  forall values w replies,
    Forall2 delivers (answers device (wire w) (Fan.get_prop <$> bs)) replies ->
    poll device bs values w
    = (Ok (values ++ concat replies),
       mkWorld (entity w) (wire w ++ (Fan.get_prop <$> bs)) (journal w)).
Proof.
  induction bs as [| b bs IH]; intros values w replies H.
  - inversion H; subst. simpl. rewrite !app_nil_r. now destruct w.
  - cbn [fmap list_fmap answers] in H.
    inversion H as [| a items ? replies' (reply & Ha & Hitems) Hrest]; subst.
    cbn [poll]. unfold Fan.send. fold (Fan.get_prop b). rewrite Ha, Hitems.
    rewrite (IH _ _ replies') by exact Hrest.
    cbn [entity wire journal concat fmap list_fmap].
    now rewrite <- !app_assoc.
Qed.

Lemma poll_device_error device (bs : list (list string)) :
  forall values w k msg,
    answers device (wire w) (Fan.get_prop <$> bs) !! k
      = Some (Raise (DeviceException msg)) ->
    Forall (fun a => exists items, delivers a items)
           (take k (answers device (wire w) (Fan.get_prop <$> bs))) ->
    poll device bs values w
    = (Raise (DeviceException msg),
       mkWorld (entity w) (wire w ++ take (S k) (Fan.get_prop <$> bs))
               (journal w)).
Proof.
  induction bs as [| b bs IH]; intros values w k msg Hk Hbefore.
  - discriminate.
  - cbn [fmap list_fmap answers] in Hk, Hbefore.
    cbn [poll]. unfold Fan.send. fold (Fan.get_prop b).
    destruct k as [| k].
    + injection Hk as ->. reflexivity.
    + cbn [take] in Hbefore.
      inversion Hbefore as [| a ? (items & reply & Ha & Hitems) Hrest]; subst.
      rewrite Ha, Hitems.
      rewrite (IH _ _ k msg) by assumption.
      cbn [entity wire journal fmap list_fmap take].
      now rewrite <- !app_assoc.
Qed.

(** ** The poller *)

(** C1.  For every list of property names and every device that answers
    each batch with a list (an iterable), [get_status] sends exactly
    ceil(N/4) [get_prop] calls, one per batch of at most four names, the
    batches being the name list cut in order; it appends the answers in
    call order and zips them with the original name list into the
    snapshot.  The entity's fields are not touched. *)
Theorem get_status_batched_poll device (properties : list string) w
    (replies : list (list pyval)) :
  Forall2 delivers
    (answers device (wire w) (Fan.get_prop <$> batches properties)) replies ->
  length (batches properties) = (length properties + 3) / 4
  /\ Forall (fun b => length b <= 4) (batches properties)
  /\ concat (batches properties) = properties
  /\ exists w',
       Fan.get_status device properties w
       = (Ok (mkStatus (dict (zip properties (concat replies)))), w')
       /\ wire w' = wire w ++ (Fan.get_prop <$> batches properties)
       /\ entity w' = entity w.
Proof.
  intros H.
  split; [apply batches_length |].
  split; [apply batches_at_most_4 |].
  split; [apply batches_concat |].
  unfold Fan.get_status, bind.
  rewrite get_status_loop_poll, (poll_delivers _ _ _ _ replies H).
  cbn [app].
  destruct (negb _).
  - eexists. cbn. repeat split.
  - eexists. cbn. repeat split.
Qed.

(** The example of the specification: the four names of [XiaomiAirFreshD]
    answered with [[True, 12, 430, "auto"]]. *)
Lemma get_status_batched_poll_witness :
  exists st w',
    XiaomiAirFreshD.get_status
      (always (Ok (VList [VBool true; VInt 12; VInt 430; VStr "auto"])))
      fresh_D = (Ok st, w')
    /\ wire w' = [("get_prop",
                   VList [VStr "power"; VStr "pm25"; VStr "co2"; VStr "mode"])]
    /\ Fan.is_on st = true
    /\ Fan.data_get st "pm25" = VInt 12
    /\ Fan.data_get st "co2" = VInt 430
    /\ Fan.mode st = Ok Auto.
Proof.
  destruct (get_status_batched_poll
              (always (Ok (VList [VBool true; VInt 12; VInt 430; VStr "auto"])))
              XiaomiAirFreshD.properties fresh_D
              [[VBool true; VInt 12; VInt 430; VStr "auto"]])
    as (_ & _ & _ & w' & Hrun & Hwire & _).
  - repeat constructor. eexists. split; reflexivity.
  - eexists _, w'. split; [exact Hrun |].
    split; [exact Hwire |].
    repeat split; vm_compute; reflexivity.
Defined.

(** C3.  When a poll takes place and one of its [get_prop] calls raises a
    device exception (the calls before it having been answered),
    [async_update] returns normally, availability is false afterwards, and
    the power state and the attributes are what they were before the poll;
    the calls after the failing one are not sent. *)
Theorem async_update_device_error device (properties : list string)
    (table : list (string * string)) w (k : nat) (msg : string) :
  _skip_update (entity w) = false ->
  answers device (wire w) (Fan.get_prop <$> batches properties) !! k
    = Some (Raise (DeviceException msg)) ->
  Forall (fun a => exists items, delivers a items)
         (take k (answers device (wire w) (Fan.get_prop <$> batches properties))) ->
  exists w',
    Fan.async_update device properties table w = (Ok tt, w')
    /\ _available (entity w') = false
    /\ _state (entity w') = _state (entity w)
    /\ _state_attrs (entity w') = _state_attrs (entity w)
    /\ _skip_update (entity w') = false
    /\ wire w' = wire w ++ take (S k) (Fan.get_prop <$> batches properties).
Proof.
  intros Hskip Hk Hbefore.
  unfold Fan.async_update, bind at 1. unfold get_skip_update. rewrite Hskip.
  unfold try_except_DeviceException, bind at 1.
  unfold Fan.get_status, bind at 1.
  rewrite get_status_loop_poll, (poll_device_error _ _ _ _ k msg Hk Hbefore).
  eexists. split; [reflexivity |]. cbn. now rewrite Hskip.
Qed.

(** The third batch of [XiaomiAirFreshDevice] times out. *)
Lemma async_update_device_error_witness :
  exists w',
    XiaomiAirFreshDevice.async_update
      (scripted [Ok (VList [VBool true; VInt 12; VInt 430; VInt 21]);
                 Ok (VList [VInt 60; VInt 80; VInt 100; VInt 60])])
      (polled fresh_Device) = (Ok tt, w')
    /\ _available (entity w') = false
    /\ _state (entity w') = Some true
    /\ _state_attrs (entity w') = _state_attrs (entity (polled fresh_Device))
    /\ length (wire w') = 3.
Proof.
  destruct (async_update_device_error
              (scripted [Ok (VList [VBool true; VInt 12; VInt 430; VInt 21]);
                         Ok (VList [VInt 60; VInt 80; VInt 100; VInt 60])])
              XiaomiAirFreshDevice.properties
              XiaomiAirFreshDevice.AVAILABLE_ATTRIBUTES_AIRFRESH
              (polled fresh_Device) 2 "timeout")
    as (w' & Hrun & Hav & Hst & Hattrs & _ & Hwire).
  - reflexivity.
  - reflexivity.
  - repeat constructor; eexists; eexists; split; reflexivity.
  - exists w'. split; [exact Hrun |]. split; [exact Hav |].
    split; [exact Hst |]. split; [exact Hattrs |].
    rewrite Hwire. reflexivity.
Defined.

(** ** The command dispatcher *)

(** C2.  When the transport returns a value, [_try_command] returns a
    boolean, and that boolean is true exactly when the value is the
    one-element list [["ok"]]. *)
Theorem try_command_true_iff_ok device (mask_error command : string)
    (parameters : pyval) w (r : pyval) :
  device (wire w) (command, parameters) = Ok r ->
  exists (b : bool) w',
    Fan._try_command device mask_error command parameters w = (Ok b, w')
    /\ (b = true <-> r = Fan.SUCCESS).
Proof.
  intros Hr.
  unfold Fan._try_command, try_except_DeviceException, bind, Fan.send.
  rewrite Hr. cbn.
  eexists _, _. split; [reflexivity |]. apply py_eq_SUCCESS.
Qed.

Lemma try_command_true_iff_ok_witness :
  exists (b : bool) w',
    Fan._try_command (always (Ok (VList [VStr "ok"; VStr "ok"])))
      "Turning the miio device on failed." "set_power" (VList [VBool true])
      fresh_Device = (Ok b, w')
    /\ (b = true <-> VList [VStr "ok"; VStr "ok"] = Fan.SUCCESS).
Proof.
  apply (try_command_true_iff_ok
           (always (Ok (VList [VStr "ok"; VStr "ok"])))
           "Turning the miio device on failed." "set_power"
           (VList [VBool true]) fresh_Device).
  reflexivity.
Defined.

(** What [_try_command] does when the transport raises a device
    exception. *)
Lemma try_command_raised_run device (mask_error command : string)
    (parameters : pyval) w (msg : string) :
  device (wire w) (command, parameters) = Raise (DeviceException msg) ->
  Fan._try_command device mask_error command parameters w
  = (Ok false,
     mkWorld
       (mkEntity false (_state (entity w)) (_state_attrs (entity w))
                 (_skip_update (entity w)))
       (wire w ++ [(command, parameters)])
       (journal w ++ [mkLog ERROR mask_error [LogExn (DeviceException msg)]])).
Proof.
  intros Hr.
  unfold Fan._try_command, try_except_DeviceException, bind, Fan.send.
  rewrite Hr. reflexivity.
Qed.

(** C4.  When the transport raises a device exception, [_try_command]
    returns [False]; the exception has been logged as an error with the
    template the caller gave, availability is false, and nothing else of
    the entity has changed. *)
Theorem try_command_device_error device (mask_error command : string)
    (parameters : pyval) w (msg : string) :
  device (wire w) (command, parameters) = Raise (DeviceException msg) ->
  Fan._try_command device mask_error command parameters w
  = (Ok false,
     mkWorld
       (mkEntity false (_state (entity w)) (_state_attrs (entity w))
                 (_skip_update (entity w)))
       (wire w ++ [(command, parameters)])
       (journal w ++ [mkLog ERROR mask_error [LogExn (DeviceException msg)]])).
Proof. apply try_command_raised_run. Qed.

Lemma try_command_device_error_witness :
  Fan._try_command (always (Raise (DeviceException "No response")))
    "Reset filter on miio device failed." "set_filter_reset"
    (VList [VBool true]) (polled fresh_Device)
  = (Ok false,
     mkWorld
       (mkEntity false (Some true) (_state_attrs (entity fresh_Device)) false)
       [("set_filter_reset", VList [VBool true])]
       [mkLog ERROR "Reset filter on miio device failed."
              [LogExn (DeviceException "No response")]]).
Proof.
  apply (try_command_device_error
           (always (Raise (DeviceException "No response")))
           "Reset filter on miio device failed." "set_filter_reset"
           (VList [VBool true]) (polled fresh_Device) "No response").
  reflexivity.
Defined.

(** C10.  When the transport returns a value other than [["ok"]],
    [_try_command] returns [False] and every field of the entity
    (availability, power state, attributes, skip flag) is as before. *)
Theorem try_command_not_ok_is_noop device (mask_error command : string)
    (parameters : pyval) w (r : pyval) :
  device (wire w) (command, parameters) = Ok r ->
  r <> Fan.SUCCESS ->
  exists w',
    Fan._try_command device mask_error command parameters w = (Ok false, w')
    /\ entity w' = entity w.
Proof.
  intros Hr Hne.
  unfold Fan._try_command, try_except_DeviceException, bind, Fan.send.
  rewrite Hr. cbn.
  destruct (py_eq r Fan.SUCCESS) eqn:E.
  - apply py_eq_SUCCESS in E. contradiction.
  - eexists. split; reflexivity.
Qed.

Lemma try_command_not_ok_is_noop_witness :
  exists w',
    Fan._try_command (always (Ok (VList [VStr "error"])))
      "Turning the miio device off failed." "set_power" (VList [VBool false])
      (polled fresh_Device) = (Ok false, w')
    /\ entity w' = entity (polled fresh_Device).
Proof.
  apply (try_command_not_ok_is_noop (always (Ok (VList [VStr "error"])))
           "Turning the miio device off failed." "set_power"
           (VList [VBool false]) (polled fresh_Device) (VList [VStr "error"])).
  - reflexivity.
  - discriminate.
Defined.

(** What [send_raw_cmd] does, by the answer of the device. *)
Lemma send_raw_cmd_run device (mask_error command : string)
    (parameters : pyval) w :
  Fan.send_raw_cmd device mask_error command parameters w =
  let sending :=
    mkLog DEBUG "sending cmd %s %s" [LogVal (VStr command); LogVal parameters] in
  let sent := wire w ++ [(command, parameters)] in
  match device (wire w) (command, parameters) with
  | Ok r =>
      (Ok (py_eq r Fan.SUCCESS),
       mkWorld (entity w) sent
         (journal w ++
          [sending;
           mkLog DEBUG "Response received from miio device: %s" [LogVal r]]))
  | Raise (DeviceException msg) =>
      (Ok false,
       mkWorld (mkEntity false (_state (entity w)) (_state_attrs (entity w))
                         (_skip_update (entity w)))
         sent
         (journal w ++
          [sending; mkLog ERROR mask_error [LogExn (DeviceException msg)]]))
  | Raise e =>
      (Raise e, mkWorld (entity w) sent (journal w ++ [sending]))
  end.
Proof.
  unfold Fan.send_raw_cmd, Fan._try_command, try_except_DeviceException,
    bind, Fan.send.
  cbn.
  destruct (device (wire w) (command, parameters)) as [r | e]; cbn.
  - now rewrite <- app_assoc.
  - destruct e; cbn; try reflexivity. now rewrite <- app_assoc.
Qed.

(** A poll that finds the skip flag set clears it and does nothing else:
    no call is sent, nothing is logged, no other field changes. *)
Lemma async_update_skipped device (properties : list string)
    (table : list (string * string)) w :
  _skip_update (entity w) = true ->
  Fan.async_update device properties table w = (Ok tt, flag_cleared w).
Proof.
  intros H. unfold Fan.async_update, bind, get_skip_update.
  now rewrite H.
Qed.

(** *** Combinators that keep a field, or never restore availability *)

Lemma keeps_ret {A B} (field : Entity -> A) (b : B) : keeps field (ret b).
Proof. intros w. reflexivity. Qed.

Lemma keeps_lift {A B} (field : Entity -> A) (r : Result B) :
  keeps field (lift r).
Proof. intros w. reflexivity. Qed.

Lemma keeps_logger {A} (field : Entity -> A) l template args :
  keeps field (logger l template args).
Proof. intros w. reflexivity. Qed.

Lemma keeps_bind {A B C} (field : Entity -> A) (m : M B) (k : B -> M C) :
  keeps field m -> (forall b, keeps field (k b)) -> keeps field (bind m k).
Proof.
  intros Hm Hk w. unfold bind. specialize (Hm w).
  destruct (m w) as [[b | e] w1]; cbn in *; [| exact Hm].
  now rewrite Hk.
Qed.

Lemma keeps_send_raw_cmd {A} (field : Entity -> A) device mask command params :
  (forall e b, field (mkEntity b (_state e) (_state_attrs e) (_skip_update e))
               = field e) ->
  keeps field (Fan.send_raw_cmd device mask command params).
Proof.
  intros Hfield w. rewrite send_raw_cmd_run. cbn zeta.
  destruct (device (wire w) (command, params)) as [r | e]; [reflexivity |].
  destruct e; cbn; try reflexivity. apply Hfield.
Qed.

Lemma never_restores_ret {B} (b : B) : never_restores (ret b).
Proof. intros w H. exact H. Qed.

Lemma never_restores_lift {B} (r : Result B) : never_restores (lift r).
Proof. intros w H. exact H. Qed.

Lemma never_restores_logger l template args :
  never_restores (logger l template args).
Proof. intros w H. exact H. Qed.

Lemma never_restores_set_state s : never_restores (set_state s).
Proof. intros w H. exact H. Qed.

Lemma never_restores_set_skip_update b : never_restores (set_skip_update b).
Proof. intros w H. exact H. Qed.

Lemma never_restores_bind {B C} (m : M B) (k : B -> M C) :
  never_restores m -> (forall b, never_restores (k b)) ->
  never_restores (bind m k).
Proof.
  intros Hm Hk w. unfold bind. specialize (Hm w).
  destruct (m w) as [[b | e] w1]; cbn in *; [| exact Hm].
  intros H. apply Hm. now apply (Hk b).
Qed.

Lemma never_restores_send_raw_cmd device mask command params :
  never_restores (Fan.send_raw_cmd device mask command params).
Proof.
  intros w. rewrite send_raw_cmd_run. cbn zeta.
  destruct (device (wire w) (command, params)) as [r | e]; [auto |].
  destruct e; cbn; auto; discriminate.
Qed.

Lemma never_restores_if {B} (c : bool) (m1 m2 : M B) :
  never_restores m1 -> never_restores m2 ->
  never_restores (if c then m1 else m2).
Proof. now destruct c. Qed.

Create HintDb fan discriminated.

#[local] Hint Resolve never_restores_ret never_restores_lift
  never_restores_logger never_restores_set_state
  never_restores_set_skip_update never_restores_send_raw_cmd
  never_restores_if : fan.
#[local] Hint Resolve keeps_ret keeps_lift keeps_logger : fan.

Ltac step_never_restores :=
  repeat first
    [ solve [auto with fan]
    | apply never_restores_if
    | apply never_restores_bind; [| intros ?] ].

Ltac step_keeps :=
  repeat first
    [ solve [auto with fan]
    | apply keeps_bind; [| intros ?] ].

(** *** The commands of [XiaomiAirFreshDevice] leave the power state and
        the skip flag alone *)

Lemma Device_call_keeps {A} (field : Entity -> A) S device
    (c : FanCall + ServiceCall) :
  (forall e b, field (mkEntity b (_state e) (_state_attrs e) (_skip_update e))
               = field e) ->
  keeps field (XiaomiAirFreshDevice.call S device c).
Proof.
  intros Hfield.
  assert (Hsend : forall mask command params,
             keeps field (XiaomiAirFreshDevice.send_raw_cmd device mask
                            command params))
    by (intros; now apply keeps_send_raw_cmd).
  assert (Hoff : keeps field (XiaomiAirFreshDevice.async_turn_off device))
    by (unfold XiaomiAirFreshDevice.async_turn_off; step_keeps).
  assert (Hspeed : forall speed,
             keeps field (XiaomiAirFreshDevice.async_set_speed S device speed)).
  { intros speed. unfold XiaomiAirFreshDevice.async_set_speed.
    destruct (Z.eqb S 0); [apply keeps_ret |].
    step_keeps.
    match goal with |- keeps _ (if ?c then _ else _) => destruct c end;
      step_keeps. }
  destruct c as [[speed | | speed] | c]; cbn [XiaomiAirFreshDevice.call].
  - unfold XiaomiAirFreshDevice.async_turn_on.
    destruct (Fan.given speed); step_keeps.
  - exact Hoff.
  - apply Hspeed.
  - destruct c; cbn [XiaomiAirFreshDevice.service];
      unfold XiaomiAirFreshDevice.async_set_ptc_on,
        XiaomiAirFreshDevice.async_set_ptc_off,
        XiaomiAirFreshDevice.async_set_favourite_speed,
        XiaomiAirFreshDevice.async_set_sound_on,
        XiaomiAirFreshDevice.async_set_sound_off,
        XiaomiAirFreshDevice.async_set_display_on,
        XiaomiAirFreshDevice.async_set_display_off,
        XiaomiAirFreshDevice.async_set_filter_reset;
      step_keeps.
Qed.

(** *** No command restores availability *)

Lemma Device_call_never_restores S device (c : FanCall + ServiceCall) :
  never_restores (XiaomiAirFreshDevice.call S device c).
Proof.
  assert (Hsend : forall mask command params,
             never_restores (XiaomiAirFreshDevice.send_raw_cmd device mask
                               command params))
    by (intros; apply never_restores_send_raw_cmd).
  assert (Hoff : never_restores (XiaomiAirFreshDevice.async_turn_off device))
    by (unfold XiaomiAirFreshDevice.async_turn_off; step_never_restores).
  assert (Hspeed : forall speed,
             never_restores
               (XiaomiAirFreshDevice.async_set_speed S device speed)).
  { intros speed. unfold XiaomiAirFreshDevice.async_set_speed.
    step_never_restores. }
  destruct c as [[speed | | speed] | c]; cbn [XiaomiAirFreshDevice.call].
  - unfold XiaomiAirFreshDevice.async_turn_on.
    destruct (Fan.given speed); step_never_restores.
  - exact Hoff.
  - apply Hspeed.
  - destruct c; cbn [XiaomiAirFreshDevice.service];
      unfold XiaomiAirFreshDevice.async_set_ptc_on,
        XiaomiAirFreshDevice.async_set_ptc_off,
        XiaomiAirFreshDevice.async_set_favourite_speed,
        XiaomiAirFreshDevice.async_set_sound_on,
        XiaomiAirFreshDevice.async_set_sound_off,
        XiaomiAirFreshDevice.async_set_display_on,
        XiaomiAirFreshDevice.async_set_display_off,
        XiaomiAirFreshDevice.async_set_filter_reset;
      step_never_restores.
Qed.

Lemma D_call_never_restores S device (c : FanCall) :
  never_restores (XiaomiAirFreshD.call S device c).
Proof.
  assert (Hsend : forall mask command params,
             never_restores (XiaomiAirFreshD.send_raw_cmd device mask
                               command params))
    by (intros; apply never_restores_send_raw_cmd).
  assert (Hoff : never_restores (XiaomiAirFreshD.async_turn_off device))
    by (unfold XiaomiAirFreshD.async_turn_off; step_never_restores).
  assert (Hspeed : forall speed,
             never_restores (XiaomiAirFreshD.async_set_speed S device speed)).
  { intros speed. unfold XiaomiAirFreshD.async_set_speed.
    step_never_restores. }
  destruct c as [speed | | speed]; cbn [XiaomiAirFreshD.call].
  - unfold XiaomiAirFreshD.async_turn_on.
    apply never_restores_bind.
    + destruct (Fan.given speed); step_never_restores.
    + intros result. step_never_restores.
  - exact Hoff.
  - apply Hspeed.
Qed.

(** ** Turning on with a mode, and setting the mode [Off] *)

Lemma to_upper_O (c : ascii) :
  to_upper c = "O"%char -> c = "o"%char \/ c = "O"%char.
Proof.
  destruct c as [[] [] [] [] [] [] [] []]; vm_compute; intros H;
    first [discriminate H | now left | now right].
Qed.

Lemma to_lower_f (c : ascii) :
  to_lower c = "f"%char -> c = "f"%char \/ c = "F"%char.
Proof.
  destruct c as [[] [] [] [] [] [] [] []]; vm_compute; intros H;
    first [discriminate H | now left | now right].
Qed.

(** The strings whose title-cased form is [Off] are the eight spellings of
    [off] in upper- and lower-case letters. *)
Lemma title_Off (speed : string) :
  title speed = "Off" <->
  In speed ["off"; "ofF"; "oFf"; "oFF"; "Off"; "OfF"; "OFf"; "OFF"].
Proof.
  split.
  - destruct speed as [| c1 [| c2 [| c3 [| c4 rest]]]]; try discriminate.
    unfold title. cbn [title_from]. intros H.
    injection H as H1 H2 H3.
    apply to_upper_O in H1.
    assert (Hc1 : is_cased c1 = true) by (destruct H1; subst; reflexivity).
    rewrite Hc1 in H2. apply to_lower_f in H2.
    assert (Hc2 : is_cased c2 = true) by (destruct H2; subst; reflexivity).
    rewrite Hc2 in H3. apply to_lower_f in H3.
    destruct H1, H2, H3; subst; cbn; tauto.
  - cbn. intros H.
    repeat (destruct H as [<- | H]; [reflexivity |]). contradiction.
Qed.

(** C6.  Turning on with the speed [Favourite] is setting the speed
    [Favourite]: same outcome and same world afterwards; the one call
    that goes over the wire is [set_mode] with the string [favourite], so
    no [set_power] is sent.  Both platforms. *)
Theorem turn_on_Favourite_is_set_mode (S : Z) device w :
  S <> 0%Z ->
  XiaomiAirFreshDevice.async_turn_on S device (Some "Favourite") w
  = XiaomiAirFreshDevice.async_set_speed S device "Favourite" w
  /\ wire (snd (XiaomiAirFreshDevice.async_turn_on S device
                  (Some "Favourite") w))
     = wire w ++ [("set_mode", VStr "favourite")]
  /\ XiaomiAirFreshD.async_turn_on S device (Some "Favourite") w
     = XiaomiAirFreshD.async_set_speed S device "Favourite" w
  /\ wire (snd (XiaomiAirFreshD.async_turn_on S device (Some "Favourite") w))
     = wire w ++ [("set_mode", VStr "favourite")].
Proof.
  intros HS.
  assert (E : Z.eqb S 0 = false) by now apply Z.eqb_neq.
  assert (Ht : title "Favourite" = "Favourite") by reflexivity.
  assert (HD : XiaomiAirFreshD.async_turn_on S device (Some "Favourite") w
               = XiaomiAirFreshD.async_set_speed S device "Favourite" w).
  { unfold XiaomiAirFreshD.async_turn_on. cbn [Fan.given truthy].
    cbn [String.eqb Ascii.eqb negb]. unfold bind, ret.
    destruct (XiaomiAirFreshD.async_set_speed S device "Favourite" w)
      as [[[] | e] w1]; reflexivity. }
  split; [reflexivity |]. split; [| split; [exact HD |]].
  - unfold XiaomiAirFreshDevice.async_turn_on. cbn [Fan.given truthy].
    cbn [String.eqb Ascii.eqb negb].
    unfold XiaomiAirFreshDevice.async_set_speed. rewrite E, Ht.
    change (OperationMode_getitem "Favourite") with (Ok Favourite).
    unfold XiaomiAirFreshDevice.send_raw_cmd, Fan.send_raw_cmd,
      Fan._try_command, try_except_DeviceException, bind, Fan.send, logger,
      lift, ret.
    cbn.
    destruct (device (wire w) ("set_mode", VStr "favourite")) as [r | e];
      [reflexivity |].
    destruct e; reflexivity.
  - rewrite HD.
    unfold XiaomiAirFreshD.async_set_speed, XiaomiAirFreshD.supported_features.
    rewrite Z.land_diag, E, Ht.
    change (OperationMode_getitem "Favourite") with (Ok Favourite).
    unfold XiaomiAirFreshD.send_raw_cmd, Fan.send_raw_cmd,
      Fan._try_command, try_except_DeviceException, bind, Fan.send, logger,
      lift, ret.
    cbn.
    destruct (device (wire w) ("set_mode", VStr "favourite")) as [r | e];
      [reflexivity |].
    destruct e; reflexivity.
Qed.

Lemma turn_on_Favourite_is_set_mode_witness :
  wire (snd (XiaomiAirFreshDevice.async_turn_on 1 (always (Ok Fan.SUCCESS))
               (Some "Favourite") fresh_Device))
  = [("set_mode", VStr "favourite")]
  /\ wire (snd (XiaomiAirFreshD.async_turn_on 1 (always (Ok Fan.SUCCESS))
                  (Some "Favourite") fresh_D))
     = [("set_mode", VStr "favourite")].
Proof.
  split.
  - apply (turn_on_Favourite_is_set_mode 1 (always (Ok Fan.SUCCESS))
             fresh_Device). lia.
  - apply (turn_on_Favourite_is_set_mode 1 (always (Ok Fan.SUCCESS))
             fresh_D). lia.
Defined.

(** C7.  Setting a speed whose title-cased form is [Off] is, after the
    debug record, exactly a turn-off: same outcome and same world; the one
    call that goes over the wire is [set_power] with [[False]], so no
    [set_mode] is sent.  Both platforms. *)
Theorem set_speed_Off_is_turn_off (S : Z) device (speed : string) w :
  S <> 0%Z ->
  title speed = "Off" ->
  let logged :=
    snd (logger DEBUG "Setting the operation mode to: %s"
                [LogVal (VStr speed)] w) in
  XiaomiAirFreshDevice.async_set_speed S device speed w
  = XiaomiAirFreshDevice.async_turn_off device logged
  /\ wire (snd (XiaomiAirFreshDevice.async_set_speed S device speed w))
     = wire w ++ [("set_power", VList [VBool false])]
  /\ XiaomiAirFreshD.async_set_speed S device speed w
     = XiaomiAirFreshD.async_turn_off device logged
  /\ wire (snd (XiaomiAirFreshD.async_set_speed S device speed w))
     = wire w ++ [("set_power", VList [VBool false])].
Proof.
  intros HS Htitle logged.
  assert (E : Z.eqb S 0 = false) by now apply Z.eqb_neq.
  assert (H1 : XiaomiAirFreshDevice.async_set_speed S device speed w
               = XiaomiAirFreshDevice.async_turn_off device logged).
  { unfold XiaomiAirFreshDevice.async_set_speed. rewrite E, Htitle.
    reflexivity. }
  assert (H2 : XiaomiAirFreshD.async_set_speed S device speed w
               = XiaomiAirFreshD.async_turn_off device logged).
  { unfold XiaomiAirFreshD.async_set_speed, XiaomiAirFreshD.supported_features.
    rewrite Z.land_diag, E, Htitle. reflexivity. }
  split; [exact H1 |]. split; [| split; [exact H2 |]].
  - rewrite H1. unfold XiaomiAirFreshDevice.async_turn_off,
      XiaomiAirFreshDevice.send_raw_cmd.
    unfold bind. rewrite send_raw_cmd_run. cbn zeta. subst logged. cbn [wire snd logger].
    destruct (device (wire w) ("set_power", VList [VBool false])) as [r | e];
      [reflexivity |].
    destruct e; reflexivity.
  - rewrite H2. unfold XiaomiAirFreshD.async_turn_off,
      XiaomiAirFreshD.send_raw_cmd.
    unfold bind. rewrite send_raw_cmd_run. cbn zeta. subst logged. cbn [wire snd logger].
    destruct (device (wire w) ("set_power", VList [VBool false])) as [r | e].
    + destruct (py_eq r Fan.SUCCESS); reflexivity.
    + destruct e; reflexivity.
Qed.

Lemma set_speed_Off_is_turn_off_witness :
  wire (snd (XiaomiAirFreshDevice.async_set_speed 1 (always (Ok Fan.SUCCESS))
               "oFF" (polled fresh_Device)))
  = [("set_power", VList [VBool false])]
  /\ wire (snd (XiaomiAirFreshD.async_set_speed 1 (always (Ok Fan.SUCCESS))
                  "oFF" (polled fresh_D)))
     = [("set_power", VList [VBool false])].
Proof.
  split.
  - apply (set_speed_Off_is_turn_off 1 (always (Ok Fan.SUCCESS)) "oFF"
             (polled fresh_Device)); [lia | reflexivity].
  - apply (set_speed_Off_is_turn_off 1 (always (Ok Fan.SUCCESS)) "oFF"
             (polled fresh_D)); [lia | reflexivity].
Defined.

(** ** Optimistic power state and the skipped poll *)

Lemma D_async_turn_on_run (S : Z) device w :
  XiaomiAirFreshD.async_turn_on S device None w =
  match Fan.send_raw_cmd device "Turning the miio device on failed."
          "set_power" (VList [VBool true]) w with
  | (Ok true, w1) =>
      (Ok tt,
       mkWorld (mkEntity (_available (entity w1)) (Some true)
                         (_state_attrs (entity w1)) true)
               (wire w1) (journal w1))
  | (Ok false, w1) => (Ok tt, w1)
  | (Raise e, w1) => (Raise e, w1)
  end.
Proof.
  unfold XiaomiAirFreshD.async_turn_on, XiaomiAirFreshD.send_raw_cmd.
  cbn [Fan.given]. unfold bind at 1. unfold bind at 1.
  destruct (Fan.send_raw_cmd device _ _ _ w) as [[[] | e] w1]; reflexivity.
Qed.

Lemma D_async_turn_off_run device w :
  XiaomiAirFreshD.async_turn_off device w =
  match Fan.send_raw_cmd device "Turning the miio device off failed."
          "set_power" (VList [VBool false]) w with
  | (Ok true, w1) =>
      (Ok tt,
       mkWorld (mkEntity (_available (entity w1)) (Some false)
                         (_state_attrs (entity w1)) true)
               (wire w1) (journal w1))
  | (Ok false, w1) => (Ok tt, w1)
  | (Raise e, w1) => (Raise e, w1)
  end.
Proof.
  unfold XiaomiAirFreshD.async_turn_off, XiaomiAirFreshD.send_raw_cmd.
  unfold bind at 1.
  destruct (Fan.send_raw_cmd device _ _ _ w) as [[[] | e] w1]; reflexivity.
Qed.

(** A [set_power] command answered with [["ok"]] sets the power state and
    arms the flag. *)
Lemma D_power_command_accepted device mask (on : bool) w :
  device (wire w) ("set_power", VList [VBool on]) = Ok Fan.SUCCESS ->
  exists w1,
    Fan.send_raw_cmd device mask "set_power" (VList [VBool on]) w
    = (Ok true, w1)
    /\ entity w1 = entity w.
Proof.
  intros H. rewrite send_raw_cmd_run, H. cbn. eexists. split; reflexivity.
Qed.

(** Any other answer leaves the power state and the flag as they were. *)
Lemma D_power_command_refused device mask (on : bool) w :
  device (wire w) ("set_power", VList [VBool on]) <> Ok Fan.SUCCESS ->
  exists r w1,
    Fan.send_raw_cmd device mask "set_power" (VList [VBool on]) w = (r, w1)
    /\ r <> Ok true
    /\ _state (entity w1) = _state (entity w)
    /\ _skip_update (entity w1) = _skip_update (entity w).
Proof.
  intros H. rewrite send_raw_cmd_run. cbn zeta.
  destruct (device (wire w) ("set_power", VList [VBool on])) as [r | e].
  - eexists _, _. split; [reflexivity |]. split; [| split; reflexivity].
    destruct (py_eq r Fan.SUCCESS) eqn:E; [| discriminate].
    apply py_eq_SUCCESS in E. now subst.
  - destruct e; eexists _, _; (split; [reflexivity |]);
      (split; [discriminate | split; reflexivity]).
Qed.

(** C5, as the code has it.  In [XiaomiAirFreshD], a turn-on without a
    speed and a turn-off whose [set_power] call is answered with [["ok"]]
    set the power state (true, resp. false) and arm the skip flag, and the
    poll that follows, whatever the device would answer, only clears the
    flag: no call is sent and availability, power state and attributes
    stay; with any other answer of the device the power state and the flag
    are as before.  In [XiaomiAirFreshDevice] no command touches the power
    state or the flag. *)
Theorem optimistic_power_state (S : Z) device w :
  let on_call := ("set_power", VList [VBool true]) in
  let off_call := ("set_power", VList [VBool false]) in
  (device (wire w) on_call = Ok Fan.SUCCESS ->
   exists w1,
     XiaomiAirFreshD.async_turn_on S device None w = (Ok tt, w1)
     /\ _state (entity w1) = Some true
     /\ _skip_update (entity w1) = true
     /\ forall device',
          XiaomiAirFreshD.async_update device' w1 = (Ok tt, flag_cleared w1))
  /\ (device (wire w) off_call = Ok Fan.SUCCESS ->
      exists w1,
        XiaomiAirFreshD.async_turn_off device w = (Ok tt, w1)
        /\ _state (entity w1) = Some false
        /\ _skip_update (entity w1) = true
        /\ forall device',
             XiaomiAirFreshD.async_update device' w1 = (Ok tt, flag_cleared w1))
  /\ (device (wire w) on_call <> Ok Fan.SUCCESS ->
      let w1 := snd (XiaomiAirFreshD.async_turn_on S device None w) in
      _state (entity w1) = _state (entity w)
      /\ _skip_update (entity w1) = _skip_update (entity w))
  /\ (device (wire w) off_call <> Ok Fan.SUCCESS ->
      let w1 := snd (XiaomiAirFreshD.async_turn_off device w) in
      _state (entity w1) = _state (entity w)
      /\ _skip_update (entity w1) = _skip_update (entity w))
  /\ (forall c : FanCall + ServiceCall,
        let w1 := snd (XiaomiAirFreshDevice.call S device c w) in
        _state (entity w1) = _state (entity w)
        /\ _skip_update (entity w1) = _skip_update (entity w)).
Proof.
  intros on_call off_call. repeat split.
  - intros H. rewrite D_async_turn_on_run.
    destruct (D_power_command_accepted device
                "Turning the miio device on failed." true w H)
      as (w1 & -> & _).
    eexists. split; [reflexivity |]. split; [reflexivity |].
    split; [reflexivity |]. intros device'. now apply async_update_skipped.
  - intros H. rewrite D_async_turn_off_run.
    destruct (D_power_command_accepted device
                "Turning the miio device off failed." false w H)
      as (w1 & -> & _).
    eexists. split; [reflexivity |]. split; [reflexivity |].
    split; [reflexivity |]. intros device'. now apply async_update_skipped.
  - rewrite D_async_turn_on_run.
    destruct (D_power_command_refused device
                "Turning the miio device on failed." true w H)
      as (r & w1 & -> & Hr & Hst & _).
    destruct r as [[] | e]; [contradiction | exact Hst | exact Hst].
  - rewrite D_async_turn_on_run.
    destruct (D_power_command_refused device
                "Turning the miio device on failed." true w H)
      as (r & w1 & -> & Hr & _ & Hsk).
    destruct r as [[] | e]; [contradiction | exact Hsk | exact Hsk].
  - rewrite D_async_turn_off_run.
    destruct (D_power_command_refused device
                "Turning the miio device off failed." false w H)
      as (r & w1 & -> & Hr & Hst & _).
    destruct r as [[] | e]; [contradiction | exact Hst | exact Hst].
  - rewrite D_async_turn_off_run.
    destruct (D_power_command_refused device
                "Turning the miio device off failed." false w H)
      as (r & w1 & -> & Hr & _ & Hsk).
    destruct r as [[] | e]; [contradiction | exact Hsk | exact Hsk].
  - now apply (Device_call_keeps _state).
  - now apply (Device_call_keeps _skip_update).
Qed.

(** A device that accepts everything, and one that refuses everything. *)
Lemma optimistic_power_state_witness :
  (exists w1,
     XiaomiAirFreshD.async_turn_off (always (Ok Fan.SUCCESS)) (polled fresh_D)
     = (Ok tt, w1)
     /\ _state (entity w1) = Some false
     /\ _skip_update (entity w1) = true
     /\ forall device',
          XiaomiAirFreshD.async_update device' w1 = (Ok tt, flag_cleared w1))
  /\ (let w1 := snd (XiaomiAirFreshD.async_turn_on 1
                       (always (Ok (VList [VStr "busy"]))) None fresh_D) in
      _state (entity w1) = None /\ _skip_update (entity w1) = false).
Proof.
  split.
  - apply (optimistic_power_state 1 (always (Ok Fan.SUCCESS)) (polled fresh_D)).
    reflexivity.
  - apply (optimistic_power_state 1 (always (Ok (VList [VStr "busy"])))
             fresh_D).
    discriminate.
Defined.

(** The one path of [XiaomiAirFreshD] that the statement above leaves out:
    a turn-on with a speed goes through [async_set_speed], whose result is
    [None], so an accepted [set_mode] sets neither the power state nor the
    flag. *)
Lemma D_turn_on_with_speed_sets_nothing :
  let w1 := snd (XiaomiAirFreshD.async_turn_on 1 (always (Ok Fan.SUCCESS))
                   (Some "Auto") fresh_D) in
  wire w1 = [("set_mode", VStr "auto")]
  /\ _state (entity w1) = None
  /\ _skip_update (entity w1) = false.
Proof. repeat split. Qed.

(** C5 as stated fails on [XiaomiAirFreshDevice]: the turn-on command is
    accepted by the device, and the power state is still unknown and the
    skip flag still unset. *)
Lemma Device_turn_on_is_not_optimistic :
  let device := always (Ok Fan.SUCCESS) in
  let w1 := snd (XiaomiAirFreshDevice.async_turn_on 1 device None
                   fresh_Device) in
  fst (XiaomiAirFreshDevice.send_raw_cmd device
         "Turning the miio device on failed." "set_power"
         (VList [VBool true]) fresh_Device) = Ok true
  /\ wire w1 = [("set_power", VList [VBool true])]
  /\ _state (entity w1) <> Some true
  /\ _skip_update (entity w1) <> true.
Proof. repeat split; vm_compute; discriminate. Qed.

(** ** Availability *)

Lemma poll_keeps_entity device (bs : list (list string)) :
  forall values w, entity (snd (poll device bs values w)) = entity w.
Proof.
  induction bs as [| b bs IH]; intros values w; [reflexivity |].
  cbn [poll]. unfold Fan.send.
  destruct (device (wire w) ("get_prop", VList (VStr <$> b))) as [reply | e];
    [| reflexivity].
  destruct (py_iter reply) as [items | e]; [| reflexivity].
  now rewrite IH.
Qed.

Lemma get_status_keeps_entity device (properties : list string) w :
  entity (snd (Fan.get_status device properties w)) = entity w.
Proof.
  unfold Fan.get_status, bind. rewrite get_status_loop_poll.
  pose proof (poll_keeps_entity device (batches properties) [] w) as H.
  destruct (poll device (batches properties) [] w) as [[values | e] w1];
    cbn in *; [| exact H].
  destruct (negb _); exact H.
Qed.

Lemma bind_lift {A B} (r : Result A) (k : A -> M B) w :
  bind (lift r) k w =
  match r with
  | Ok a => k a w
  | Raise e => (Raise e, w)
  end.
Proof. now destruct r. Qed.

Lemma extract_value_no_device_error (properties : list string)
    (state : Status) (attribute msg : string) :
  Fan._extract_value_from_attribute properties state attribute
  <> Raise (DeviceException msg).
Proof.
  unfold Fan._extract_value_from_attribute, Fan.getattr, Fan.mode,
    OperationMode_call.
  destruct (String.eqb attribute "mode").
  - destruct (find _ OperationMode_members); discriminate.
  - destruct (String.eqb attribute "is_on"); [discriminate |].
    destruct (bool_decide _); discriminate.
Qed.

(** Reading the attributes of a snapshot raises no device exception and
    touches nothing. *)
Lemma extract_attributes_outcome (properties : list string) (state : Status)
    (table : list (string * string)) w :
  exists r,
    comprehension
      (fun kv =>
         v <- lift (Fan._extract_value_from_attribute properties state kv.2) ;;
         ret (kv.1, v)) table w = (r, w)
    /\ forall msg, r <> Raise (DeviceException msg).
Proof.
  induction table as [| [key attribute] table IH].
  - eexists. split; [reflexivity | discriminate].
  - destruct IH as (r & Hr & Hne).
    cbn [comprehension]. unfold bind at 1. rewrite bind_lift. cbn [fst snd].
    pose proof (extract_value_no_device_error properties state attribute)
      as Hhead.
    destruct (Fan._extract_value_from_attribute properties state attribute)
      as [v | e].
    + unfold ret at 1. unfold bind at 1. rewrite Hr.
      destruct r as [attrs | e]; eexists; (split; [reflexivity |]);
        [discriminate | exact Hne].
    + eexists. split; [reflexivity |]. intros msg Heq. apply (Hhead msg).
      now injection Heq as ->.
Qed.

(** A poll whose [get_status] returns a snapshot makes the entity
    available, also when reading the snapshot's attributes then fails. *)
Lemma async_update_polled device (properties : list string)
    (table : list (string * string)) w st w1 :
  _skip_update (entity w) = false ->
  Fan.get_status device properties w = (Ok st, w1) ->
  _available (entity (snd (Fan.async_update device properties table w))) = true.
Proof.
  intros Hskip Hget.
  unfold Fan.async_update, bind at 1. unfold get_skip_update. rewrite Hskip.
  unfold try_except_DeviceException, bind at 1. rewrite Hget.
  unfold bind at 1. cbn [logger]. unfold bind at 1. cbn [set_available with_entity].
  unfold bind at 1. cbn [set_state with_entity]. unfold bind at 1.
  match goal with
  | |- context [comprehension _ table ?w2] =>
      destruct (extract_attributes_outcome properties st table w2)
        as (r & Hr & Hne); rewrite Hr
  end.
  destruct r as [attrs | e]; [reflexivity |].
  destruct e; try reflexivity. now contradiction (Hne msg).
Qed.

(** What a poll does to availability when [get_status] raises. *)
Lemma async_update_failed device (properties : list string)
    (table : list (string * string)) w e w1 :
  _skip_update (entity w) = false ->
  Fan.get_status device properties w = (Raise e, w1) ->
  _available (entity (snd (Fan.async_update device properties table w)))
  = match e with
    | DeviceException _ => false
    | _ => _available (entity w)
    end.
Proof.
  intros Hskip Hget.
  pose proof (get_status_keeps_entity device properties w) as Hent.
  rewrite Hget in Hent. cbn in Hent.
  unfold Fan.async_update, bind at 1. unfold get_skip_update. rewrite Hskip.
  unfold try_except_DeviceException, bind at 1. rewrite Hget.
  destruct e; cbn; now rewrite ?Hent.
Qed.

(** C9, as the code has it.  After a command whose transport call raised a
    device exception the entity is unavailable (a command refused with a
    value other than [["ok"]] leaves availability as it was, see C10); no
    command of either platform turns availability from false to true; a
    poll turns it to true only if it is not skipped and [get_status]
    returns a snapshot, and every such poll does. *)
Theorem availability_restored_only_by_poll (S : Z) device w :
  (forall mask command parameters msg,
      device (wire w) (command, parameters) = Raise (DeviceException msg) ->
      fst (Fan._try_command device mask command parameters w) = Ok false
      /\ _available
           (entity (snd (Fan._try_command device mask command parameters w)))
         = false)
  /\ (forall c : FanCall + ServiceCall,
        _available (entity (snd (XiaomiAirFreshDevice.call S device c w))) = true ->
        _available (entity w) = true)
  /\ (forall c : FanCall,
        _available (entity (snd (XiaomiAirFreshD.call S device c w))) = true ->
        _available (entity w) = true)
  /\ (forall properties table,
        _available (entity (snd (Fan.async_update device properties table w)))
          = true ->
        _available (entity w) = true
        \/ (_skip_update (entity w) = false
            /\ exists st w1,
                 Fan.get_status device properties w = (Ok st, w1)))
  /\ (forall properties table st w1,
        _skip_update (entity w) = false ->
        Fan.get_status device properties w = (Ok st, w1) ->
        _available (entity (snd (Fan.async_update device properties table w)))
        = true).
Proof.
  split; [| split; [| split; [| split]]].
  - intros mask command parameters msg H.
    now rewrite (try_command_raised_run device mask command parameters w msg H).
  - intros c. apply Device_call_never_restores.
  - intros c. apply D_call_never_restores.
  - intros properties table H.
    destruct (_skip_update (entity w)) eqn:Hskip.
    + left. rewrite async_update_skipped in H by exact Hskip. exact H.
    + destruct (Fan.get_status device properties w) as [[st | e] w1] eqn:Hget.
      * right. split; [reflexivity |]. now exists st, w1.
      * left.
        rewrite (async_update_failed device properties table w e w1 Hskip Hget)
          in H.
        destruct e; (discriminate H || exact H).
  - intros properties table st w1. apply async_update_polled.
Qed.

(** A command fails on a dead device; a poll of the recovered device makes
    the entity available again. *)
Lemma availability_restored_only_by_poll_witness :
  _available
    (entity (snd (Fan._try_command
                    (always (Raise (DeviceException "No response")))
                    "Turning the miio device on failed." "set_power"
                    (VList [VBool true]) (polled fresh_D)))) = false
  /\ _available
       (entity (snd (Fan.async_update
                       (always (Ok (VList [VBool true; VInt 12; VInt 430;
                                           VStr "auto"])))
                       XiaomiAirFreshD.properties
                       XiaomiAirFreshD.AVAILABLE_ATTRIBUTES_AIRFRESH
                       fresh_D))) = true.
Proof.
  split.
  - apply (availability_restored_only_by_poll 1
             (always (Raise (DeviceException "No response")))
             (polled fresh_D)) with (msg := "No response").
    reflexivity.
  - destruct (availability_restored_only_by_poll 1
                (always (Ok (VList [VBool true; VInt 12; VInt 430;
                                    VStr "auto"]))) fresh_D)
      as (_ & _ & _ & _ & Hpoll).
    eapply Hpoll; reflexivity.
Defined.

(** C9 as stated fails: a command that the device refuses has failed, and
    the entity is still available. *)
Lemma refused_command_keeps_availability :
  let run :=
    Fan._try_command (always (Ok (VList [VStr "error"])))
      "Turning the miio device off failed." "set_power" (VList [VBool false])
      (polled fresh_Device) in
  fst run = Ok false /\ _available (entity (snd run)) <> false.
Proof. split; vm_compute; [reflexivity | discriminate]. Qed.

(** ** Reading a snapshot that is short of values *)

Lemma dict_update_lookup_other (pairs : list (string * pyval)) :
  forall (d : gmap string pyval) (name : string),
    ~ In name (fst <$> pairs) ->
    dict_update d pairs !! name = d !! name.
Proof.
  unfold dict_update.
  induction pairs as [| [k v] pairs IH]; intros d name Hnot; [reflexivity |].
  cbn [foldl]. rewrite IH.
  - cbn [fst snd]. apply lookup_insert_ne. intros ->. apply Hnot. now left.
  - intros Hin. apply Hnot. now right.
Qed.

Lemma zip_names (names : list string) :
  forall (values : list pyval),
    fst <$> zip names values = take (length values) names.
Proof.
  induction names as [| n names IH]; intros [| v values]; cbn; try reflexivity.
  now rewrite IH.
Qed.

(** Every name that got no value reads as [None] from [self.data]. *)
Lemma missing_name_reads_None (names : list string) (values : list pyval)
    (name : string) :
  ~ In name (take (length values) names) ->
  Fan.data_get (mkStatus (dict (zip names values))) name = VNone.
Proof.
  intros H. unfold Fan.data_get, dict. cbn [data].
  change (foldl _ ∅ (zip names values))
    with (dict_update ∅ (zip names values)).
  rewrite dict_update_lookup_other by now rewrite zip_names.
  now rewrite lookup_empty.
Qed.

(** But [mode] goes through the enumeration, which has no member for
    [None]: on both platforms, whenever fewer values than names came back,
    reading [mode] raises [ValueError]. *)
Lemma mode_of_short_snapshot (values : list pyval) :
  (length values < length XiaomiAirFreshD.properties ->
   Fan.mode (mkStatus (dict (zip XiaomiAirFreshD.properties values)))
   = Raise ValueError)
  /\ (length values < length XiaomiAirFreshDevice.properties ->
      Fan.mode (mkStatus (dict (zip XiaomiAirFreshDevice.properties values)))
      = Raise ValueError).
Proof.
  split; intros H; unfold Fan.mode; rewrite missing_name_reads_None;
    try reflexivity.
  - do 4 (destruct values as [| ? values];
          [cbn; intuition discriminate |]).
    cbn in H. lia.
  - do 14 (destruct values as [| ? values];
           [cbn; intuition discriminate |]).
    cbn in H. lia.
Qed.

(** C8 at a failing input.  [XiaomiAirFreshD] polls a device that answers
    the four names with three values: the snapshot is built and aligned
    ([co2] is 430, [mode] got no value and reads [None] from the data), but
    the property [mode] raises [ValueError], and so does [async_update],
    after it has marked the entity available and before it has stored any
    attribute. *)
Theorem mode_missing_raises_ValueError :
  let device := always (Ok (VList [VBool true; VInt 12; VInt 430])) in
  let after := XiaomiAirFreshD.async_update device fresh_D in
  exists st w1,
    XiaomiAirFreshD.get_status device fresh_D = (Ok st, w1)
    /\ Fan.data_get st "co2" = VInt 430
    /\ Fan.data_get st "mode" = VNone
    /\ Fan.mode st = Raise ValueError
    /\ fst after = Raise ValueError
    /\ _available (entity (snd after)) = true
    /\ _state_attrs (entity (snd after)) = _state_attrs (entity fresh_D).
Proof.
  eexists _, _. split; [vm_compute; reflexivity |].
  repeat split; vm_compute; reflexivity.
Qed.

(** * Further properties of the code *)

(** ** The enumeration *)

Lemma OperationMode_call_inv (v : pyval) (m : OperationMode) :
  OperationMode_call v = Ok m -> v = VStr (OperationMode_value m).
Proof.
  unfold OperationMode_call, OperationMode_members.
  destruct v as [| b | z | s | l]; cbn [List.find py_eq OperationMode_value];
    try discriminate.
  destruct (String.eqb_spec "off" s) as [<- | _]; [now intros [= <-] |].
  destruct (String.eqb_spec "auto" s) as [<- | _]; [now intros [= <-] |].
  destruct (String.eqb_spec "sleep" s) as [<- | _]; [now intros [= <-] |].
  destruct (String.eqb_spec "favourite" s) as [<- | _]; [now intros [= <-] |].
  discriminate.
Qed.

Lemma OperationMode_getitem_inv (name : string) (m : OperationMode) :
  OperationMode_getitem name = Ok m -> name = OperationMode_name m.
Proof.
  unfold OperationMode_getitem, OperationMode_members.
  cbn [List.find OperationMode_name].
  destruct (String.eqb_spec "Off" name) as [<- | _]; [now intros [= <-] |].
  destruct (String.eqb_spec "Auto" name) as [<- | _]; [now intros [= <-] |].
  destruct (String.eqb_spec "Sleep" name) as [<- | _]; [now intros [= <-] |].
  destruct (String.eqb_spec "Favourite" name) as [<- | _];
    [now intros [= <-] |].
  discriminate.
Qed.

Lemma OperationMode_call_other (v : pyval) :
  (forall m, v <> VStr (OperationMode_value m)) ->
  OperationMode_call v = Raise ValueError.
Proof.
  intros H. unfold OperationMode_call.
  destruct (find _ OperationMode_members) as [m |] eqn:E; [| reflexivity].
  exfalso. apply (H m). apply OperationMode_call_inv.
  unfold OperationMode_call. now rewrite E.
Qed.

(** X1.  The two lookups of the enumeration invert [value] and [name]: a
    value is accepted by [OperationMode(...)] exactly when it is the wire
    token of a member, a name by [OperationMode[...]] exactly when it is a
    member's name; and title-casing a wire token or a member name gives
    the member name, which is an entry of the speed list. *)
Theorem OperationMode_round_trips (m : OperationMode) :
  (forall v, OperationMode_call v = Ok m <-> v = VStr (OperationMode_value m))
  /\ (forall name,
        OperationMode_getitem name = Ok m <-> name = OperationMode_name m)
  /\ title (OperationMode_value m) = OperationMode_name m
  /\ title (OperationMode_name m) = OperationMode_name m
  /\ In (OperationMode_name m) OPERATION_MODES_AIRFRESH.
Proof.
  split; [| split; [| split; [| split]]].
  - intros v. split; [apply OperationMode_call_inv |].
    intros ->. now destruct m.
  - intros name. split; [apply OperationMode_getitem_inv |].
    intros ->. now destruct m.
  - now destruct m.
  - now destruct m.
  - destruct m; cbn; tauto.
Qed.

(** X2.  What the poller stores for [mode] is the token the device sent,
    unchanged; and a snapshot whose [mode] entry is anything but one of
    the four tokens (missing, [None], a number, another string) makes the
    read raise [ValueError]. *)
Theorem mode_attribute_is_wire_token (properties : list string)
    (state : Status) :
  match Fan._extract_value_from_attribute properties state "mode" with
  | Ok v =>
      data state !! "mode" = Some v
      /\ exists m, v = VStr (OperationMode_value m)
  | Raise e =>
      e = ValueError
      /\ forall m, data state !! "mode" <> Some (VStr (OperationMode_value m))
  end.
Proof.
  unfold Fan._extract_value_from_attribute, Fan.getattr, Fan.mode,
    Fan.data_get.
  cbn [String.eqb Ascii.eqb Bool.eqb].
  destruct (OperationMode_call (default VNone (data state !! "mode")))
    as [m | e] eqn:E.
  - apply OperationMode_call_inv in E.
    destruct (data state !! "mode") as [v |]; cbn in E.
    + subst v. split; [reflexivity | now exists m].
    + discriminate E.
  - assert (Hno : forall m,
               data state !! "mode" <> Some (VStr (OperationMode_value m))).
    { intros m Hm. rewrite Hm in E. cbn [default] in E.
      destruct m; discriminate E. }
    split; [| exact Hno].
    rewrite OperationMode_call_other in E; [now injection E as <- |].
    intros m Hm. apply (Hno m).
    destruct (data state !! "mode") as [v |]; cbn in Hm;
      [now subst v | discriminate Hm].
Qed.

(** ** Reading the snapshot by name *)

Lemma dict_update_lookup_in (pairs : list (string * pyval)) :
  forall (d : gmap string pyval) (i : nat) (k : string) (v : pyval),
    NoDup (fst <$> pairs) ->
    pairs !! i = Some (k, v) ->
    dict_update d pairs !! k = Some v.
Proof.
  unfold dict_update.
  induction pairs as [| [k0 v0] pairs IH]; intros d i k v Hnd Hi;
    [discriminate |].
  cbn [fmap list_fmap fst] in Hnd. apply NoDup_cons in Hnd as [Hnot Hnd].
  cbn [foldl fst snd]. destruct i as [| i].
  - injection Hi as -> ->.
    pose proof (dict_update_lookup_other pairs (<[k := v]> d) k) as H.
    unfold dict_update in H. rewrite H.
    + apply lookup_insert_eq.
    + intros Hin. apply Hnot. now apply list_elem_of_In.
  - now apply (IH _ i).
Qed.

Lemma zip_lookup (names : list string) :
  forall (values : list pyval) (i : nat) (n : string) (v : pyval),
    names !! i = Some n -> values !! i = Some v ->
    zip names values !! i = Some (n, v).
Proof.
  induction names as [| n0 names IH]; intros [| v0 values] i n v Hn Hv;
    try discriminate.
  destruct i as [| i]; cbn in *.
  - now injection Hn as ->; injection Hv as ->.
  - now apply IH.
Qed.

Lemma NoDup_take_names (names : list string) (k : nat) :
  NoDup names -> NoDup (take k names).
Proof.
  intros H. rewrite <- (take_drop k names) in H.
  now apply NoDup_app in H as [H _].
Qed.

(** X3.  With distinct names, the snapshot built by [get_status] reads
    back, under the i-th name, the i-th received value. *)
Theorem snapshot_reads_by_position (names : list string)
    (values : list pyval) (i : nat) (n : string) (v : pyval) :
  NoDup names ->
  names !! i = Some n ->
  values !! i = Some v ->
  Fan.data_get (mkStatus (dict (zip names values))) n = v.
Proof.
  intros Hnd Hn Hv. unfold Fan.data_get, dict. cbn [data].
  change (foldl _ ∅ (zip names values))
    with (dict_update ∅ (zip names values)).
  rewrite (dict_update_lookup_in _ _ i n v); [reflexivity | |].
  - rewrite zip_names. now apply NoDup_take_names.
  - now apply zip_lookup.
Qed.

Lemma snapshot_reads_by_position_witness :
  Fan.data_get
    (mkStatus (dict (zip XiaomiAirFreshDevice.properties
                         [VBool true; VInt 12; VInt 430; VInt 21; VInt 60])))
    "temperature_outside" = VInt 21.
Proof.
  apply (snapshot_reads_by_position XiaomiAirFreshDevice.properties
           [VBool true; VInt 12; VInt 430; VInt 21; VInt 60] 3).
  - repeat (constructor; [cbn; rewrite ?list_elem_of_In; cbn;
                          intuition discriminate |]).
    constructor.
  - reflexivity.
  - reflexivity.
Defined.

(** ** Setting a speed *)


(** In [XiaomiAirFreshD] a turn-on with a non-empty speed is the call of
    [async_set_speed]: its result is [None], so nothing is added. *)
Lemma D_turn_on_with_speed_run (S : Z) device (c : ascii) (s : string) w :
  XiaomiAirFreshD.async_turn_on S device (Some (String c s)) w
  = XiaomiAirFreshD.async_set_speed S device (String c s) w.
Proof.
  unfold XiaomiAirFreshD.async_turn_on. cbn [Fan.given truthy].
  cbn [String.eqb negb]. unfold bind, ret.
  destruct (XiaomiAirFreshD.async_set_speed S device (String c s) w)
    as [[[] | e] w1]; reflexivity.
Qed.

(** X4.  A speed whose title-cased form names a member makes
    [async_set_speed], and [async_turn_on] called with that speed, send
    exactly one call: [set_power([False])] for [Off], and otherwise
    [set_mode] with the member's wire token as a bare string.  In
    particular a turn-on with a speed never sends [set_power([True])].
    Both platforms. *)
Theorem set_speed_sends_member_command (S : Z) device (speed : string)
    (m : OperationMode) w :
  S <> 0%Z ->
  OperationMode_getitem (title speed) = Ok m ->
  wire (snd (XiaomiAirFreshDevice.async_set_speed S device speed w))
  = wire w ++ [speed_command m]
  /\ wire (snd (XiaomiAirFreshDevice.async_turn_on S device (Some speed) w))
     = wire w ++ [speed_command m]
  /\ wire (snd (XiaomiAirFreshD.async_set_speed S device speed w))
     = wire w ++ [speed_command m]
  /\ wire (snd (XiaomiAirFreshD.async_turn_on S device (Some speed) w))
     = wire w ++ [speed_command m].
Proof.
  intros HS Hm.
  assert (E : Z.eqb S 0 = false) by now apply Z.eqb_neq.
  assert (H1 : wire (snd (XiaomiAirFreshDevice.async_set_speed S device
                            speed w)) = wire w ++ [speed_command m]).
  { unfold XiaomiAirFreshDevice.async_set_speed. rewrite E, Hm.
    unfold XiaomiAirFreshDevice.async_turn_off,
      XiaomiAirFreshDevice.send_raw_cmd, Fan.send_raw_cmd, Fan._try_command,
      try_except_DeviceException, bind, Fan.send, logger, lift, ret.
    destruct m; cbn;
      match goal with
      | |- context [device ?h ?c] => destruct (device h c) as [r | []]
      end; reflexivity. }
  assert (H2 : wire (snd (XiaomiAirFreshD.async_set_speed S device speed w))
               = wire w ++ [speed_command m]).
  { unfold XiaomiAirFreshD.async_set_speed, XiaomiAirFreshD.supported_features.
    rewrite Z.land_diag, E, Hm.
    unfold XiaomiAirFreshD.async_turn_off,
      XiaomiAirFreshD.send_raw_cmd, Fan.send_raw_cmd, Fan._try_command,
      try_except_DeviceException, bind, Fan.send, logger, lift, ret.
    destruct m; cbn;
      match goal with
      | |- context [device ?h ?c] => destruct (device h c) as [r | []]
      end; try reflexivity.
    destruct (py_eq r Fan.SUCCESS); reflexivity. }
  destruct speed as [| c s]; [discriminate Hm |].
  split; [exact H1 |]. split; [exact H1 |]. split; [exact H2 |].
  now rewrite D_turn_on_with_speed_run.
Qed.

Lemma set_speed_sends_member_command_witness :
  wire (snd (XiaomiAirFreshDevice.async_turn_on 1
               (always (Raise (DeviceException "No response")))
               (Some "sLEEP") fresh_Device))
  = [("set_mode", VStr "sleep")]
  /\ wire (snd (XiaomiAirFreshD.async_turn_on 1 (always (Ok Fan.SUCCESS))
                  (Some "off") fresh_D))
     = [("set_power", VList [VBool false])].
Proof.
  split.
  - apply (set_speed_sends_member_command 1
             (always (Raise (DeviceException "No response"))) "sLEEP" Sleep
             fresh_Device); [lia | reflexivity].
  - apply (set_speed_sends_member_command 1 (always (Ok Fan.SUCCESS)) "off"
             Off fresh_D); [lia | reflexivity].
Defined.



(** ** A reply that cannot be iterated *)

Lemma poll_not_iterable device (bs : list (list string)) :
  forall values w k v,
    answers device (wire w) (Fan.get_prop <$> bs) !! k = Some (Ok v) ->
    py_iter v = Raise TypeError ->
    Forall (fun a => exists items, delivers a items)
           (take k (answers device (wire w) (Fan.get_prop <$> bs))) ->
    poll device bs values w
    = (Raise TypeError,
       mkWorld (entity w) (wire w ++ take (S k) (Fan.get_prop <$> bs))
               (journal w)).
Proof.
  induction bs as [| b bs IH]; intros values w k v Hk Hv Hbefore.
  - discriminate.
  - cbn [fmap list_fmap answers] in Hk, Hbefore.
    cbn [poll]. unfold Fan.send. fold (Fan.get_prop b).
    destruct k as [| k].
    + injection Hk as ->. now rewrite Hv.
    + cbn [take] in Hbefore.
      inversion Hbefore as [| a ? (items & reply & Ha & Hitems) Hrest]; subst.
      rewrite Ha, Hitems.
      rewrite (IH _ _ k v) by assumption.
      cbn [entity wire journal fmap list_fmap take].
      now rewrite <- !app_assoc.
Qed.

(** X6.  When a [get_prop] call of a poll is answered with a value that is
    not iterable ([None], a boolean, a number), [async_update] raises
    [TypeError]: the later batches are not sent, nothing is logged, and
    the entity, availability included, is exactly as before. *)
Theorem async_update_not_iterable device (properties : list string)
    (table : list (string * string)) w (k : nat) (v : pyval) :
  _skip_update (entity w) = false ->
  answers device (wire w) (Fan.get_prop <$> batches properties) !! k
    = Some (Ok v) ->
  py_iter v = Raise TypeError ->
  Forall (fun a => exists items, delivers a items)
         (take k (answers device (wire w) (Fan.get_prop <$> batches properties))) ->
  Fan.async_update device properties table w
  = (Raise TypeError,
     mkWorld (entity w)
             (wire w ++ take (S k) (Fan.get_prop <$> batches properties))
             (journal w)).
Proof.
  intros Hskip Hk Hv Hbefore.
  unfold Fan.async_update, bind at 1. unfold get_skip_update. rewrite Hskip.
  unfold try_except_DeviceException, bind at 1.
  unfold Fan.get_status, bind at 1.
  now rewrite get_status_loop_poll, (poll_not_iterable _ _ _ _ k v Hk Hv Hbefore).
Qed.

Lemma async_update_not_iterable_witness :
  XiaomiAirFreshDevice.async_update
    (scripted [Ok (VList [VBool true; VInt 12; VInt 430; VInt 21]); Ok VNone])
    (polled fresh_Device)
  = (Raise TypeError,
     mkWorld (entity (polled fresh_Device))
       [("get_prop",
         VList [VStr "power"; VStr "pm25"; VStr "co2";
                VStr "temperature_outside"]);
        ("get_prop",
         VList [VStr "favourite_speed"; VStr "filter_rate";
                VStr "filter_day"; VStr "control_speed"])]
       []).
Proof.
  apply (async_update_not_iterable
           (scripted [Ok (VList [VBool true; VInt 12; VInt 430; VInt 21]);
                      Ok VNone])
           XiaomiAirFreshDevice.properties
           XiaomiAirFreshDevice.AVAILABLE_ATTRIBUTES_AIRFRESH
           (polled fresh_Device) 1 VNone).
  - reflexivity.
  - reflexivity.
  - reflexivity.
  - repeat constructor. eexists _, _. split; reflexivity.
Defined.

(** ** The service methods *)

(** X7.  Every service method of [XiaomiAirFreshDevice] sends exactly one
    call, the one of its row in [service_command] (the two "off" services
    send the "on" command with [[False]]); it returns normally whenever the
    device answers or raises a device exception, and of the entity it can
    only change availability, to false, in the second case. *)
Theorem service_sends_one_command device (c : ServiceCall) w :
  let run := XiaomiAirFreshDevice.service device c w in
  wire (snd run) = wire w ++ [service_command c]
  /\ _state (entity (snd run)) = _state (entity w)
  /\ _state_attrs (entity (snd run)) = _state_attrs (entity w)
  /\ _skip_update (entity (snd run)) = _skip_update (entity w)
  /\ match device (wire w) (service_command c) with
     | Ok _ =>
         fst run = Ok tt
         /\ _available (entity (snd run)) = _available (entity w)
     | Raise (DeviceException _) =>
         fst run = Ok tt /\ _available (entity (snd run)) = false
     | Raise e =>
         fst run = Raise e
         /\ _available (entity (snd run)) = _available (entity w)
     end.
Proof.
  destruct c; cbn [XiaomiAirFreshDevice.service service_command];
    unfold XiaomiAirFreshDevice.async_set_ptc_on,
      XiaomiAirFreshDevice.async_set_ptc_off,
      XiaomiAirFreshDevice.async_set_favourite_speed,
      XiaomiAirFreshDevice.async_set_sound_on,
      XiaomiAirFreshDevice.async_set_sound_off,
      XiaomiAirFreshDevice.async_set_display_on,
      XiaomiAirFreshDevice.async_set_display_off,
      XiaomiAirFreshDevice.async_set_filter_reset,
      XiaomiAirFreshDevice.send_raw_cmd, Fan.send_raw_cmd, Fan._try_command,
      try_except_DeviceException, bind, Fan.send, logger, ret;
    cbn;
    match goal with
    | |- context [device ?h ?c] => destruct (device h c) as [r | []]
    end; cbn; repeat split.
Qed.

(** ** A poll that succeeds *)

Lemma comprehension_extracted (properties : list string) (state : Status)
    (table : list (string * string)) (pairs : list (string * pyval)) w :
  Forall2 (fun kv p =>
             p.1 = kv.1
             /\ Fan._extract_value_from_attribute properties state kv.2
                = Ok p.2) table pairs ->
  comprehension
    (fun kv =>
       v <- lift (Fan._extract_value_from_attribute properties state kv.2) ;;
       ret (kv.1, v)) table w = (Ok pairs, w).
Proof.
  induction 1 as [| kv [k v] table pairs [Hk Hv] _ IH]; [reflexivity |].
  cbn [comprehension]. unfold bind at 1. rewrite bind_lift.
  cbn [fst snd] in Hk, Hv. rewrite Hv. unfold ret at 1.
  unfold bind at 1. rewrite IH. unfold ret. now subst k.
Qed.

(** What [async_update] does when the poll is not skipped, [get_status]
    returns and every attribute of the table can be read. *)
Lemma async_update_success_run device (properties : list string)
    (table : list (string * string)) w st w1 (pairs : list (string * pyval)) :
  _skip_update (entity w) = false ->
  Fan.get_status device properties w = (Ok st, w1) ->
  Forall2 (fun kv p =>
             p.1 = kv.1
             /\ Fan._extract_value_from_attribute properties st kv.2
                = Ok p.2) table pairs ->
  Fan.async_update device properties table w
  = (Ok tt,
     mkWorld (mkEntity true (Some (Fan.is_on st))
                (dict_update (_state_attrs (entity w)) pairs) false)
             (wire w1)
             (journal w1 ++ [mkLog DEBUG "Got new state: %s" [LogStatus st]])).
Proof.
  intros Hskip Hget Hpairs.
  pose proof (get_status_keeps_entity device properties w) as Hent.
  rewrite Hget in Hent. cbn [snd] in Hent.
  unfold Fan.async_update, bind at 1. unfold get_skip_update. rewrite Hskip.
  unfold try_except_DeviceException, bind at 1. rewrite Hget.
  unfold bind at 1. cbn [logger]. unfold bind at 1.
  cbn [set_available with_entity]. unfold bind at 1.
  cbn [set_state with_entity]. unfold bind at 1.
  rewrite (comprehension_extracted properties st table pairs) by exact Hpairs.
  cbn. now rewrite Hent, Hskip.
Qed.

(** The attributes of a table whose rows read the polled property of the
    same name. *)
Lemma extract_polled_property (properties : list string) (st : Status)
    (m : OperationMode) (key : string) :
  Fan.mode st = Ok m ->
  key ∈ properties ->
  key <> "is_on" ->
  Fan._extract_value_from_attribute properties st key
  = Ok (Fan.data_get st key).
Proof.
  intros Hm Hin Hne.
  unfold Fan._extract_value_from_attribute, Fan.getattr.
  destruct (String.eqb_spec key "mode") as [-> | _].
  - rewrite Hm. unfold Fan.mode in Hm.
    now rewrite (OperationMode_call_inv _ _ Hm).
  - destruct (String.eqb_spec key "is_on") as [-> | _]; [contradiction |].
    now rewrite bool_decide_eq_true_2.
Qed.

Lemma poll_snapshot_run device (properties keys : list string)
    w st w1 (m : OperationMode) :
  _skip_update (entity w) = false ->
  Fan.get_status device properties w = (Ok st, w1) ->
  Fan.mode st = Ok m ->
  NoDup keys ->
  (forall key, key ∈ keys -> key ∈ properties /\ key <> "is_on") ->
  exists w',
    Fan.async_update device properties ((fun k => (k, k)) <$> keys) w
    = (Ok tt, w')
    /\ _available (entity w') = true
    /\ _state (entity w') = Some (Fan.is_on st)
    /\ _skip_update (entity w') = false
    /\ wire w' = wire w1
    /\ (forall key, key ∈ keys ->
          _state_attrs (entity w') !! key = Some (Fan.data_get st key))
    /\ (forall key, key ∉ keys ->
          _state_attrs (entity w') !! key = _state_attrs (entity w) !! key).
Proof.
  intros Hskip Hget Hm Hnd Hkeys.
  set (pairs := (fun k => (k, Fan.data_get st k)) <$> keys).
  assert (Hfst : fst <$> pairs = keys).
  { unfold pairs. rewrite <- list_fmap_compose. apply list_fmap_id. }
  assert (Hpairs : Forall2 (fun kv p =>
                      p.1 = kv.1
                      /\ Fan._extract_value_from_attribute properties st kv.2
                         = Ok p.2) ((fun k => (k, k)) <$> keys) pairs).
  { unfold pairs. apply Forall2_fmap, Forall2_same_length_lookup.
    split; [reflexivity |].
    intros i k k' Hk Hk'. rewrite Hk in Hk'. injection Hk' as <-.
    cbn [fst snd]. split; [reflexivity |].
    destruct (Hkeys k) as [Hin Hne]; [now apply list_elem_of_lookup_2 in Hk |].
    now apply (extract_polled_property properties st m). }
  rewrite (async_update_success_run device properties _ w st w1 pairs
             Hskip Hget Hpairs).
  eexists. split; [reflexivity |]. cbn [entity _available _state _skip_update
                                          _state_attrs wire].
  repeat split.
  - intros key [i Hi]%list_elem_of_lookup.
    apply (dict_update_lookup_in pairs _ i).
    + now rewrite Hfst.
    + unfold pairs. now rewrite list_lookup_fmap, Hi.
  - intros key Hnot. apply dict_update_lookup_other.
    rewrite Hfst. now rewrite <- list_elem_of_In.
Qed.

(** X8.  A poll that is not skipped, whose [get_status] returns a snapshot
    with a valid mode, returns normally and leaves the entity available,
    with the power state of the snapshot; every attribute of the table now
    holds the polled value of its name ([mode] as the wire token), and
    every other attribute, such as [model], is what it was.  The table is
    the one of either platform: distinct polled names, each stored under
    itself. *)
Theorem poll_stores_the_snapshot device (properties keys : list string)
    w st w1 (m : OperationMode) :
  _skip_update (entity w) = false ->
  Fan.get_status device properties w = (Ok st, w1) ->
  Fan.mode st = Ok m ->
  NoDup keys ->
  (forall key, key ∈ keys -> key ∈ properties /\ key <> "is_on") ->
  exists w',
    Fan.async_update device properties ((fun k => (k, k)) <$> keys) w
    = (Ok tt, w')
    /\ _available (entity w') = true
    /\ _state (entity w') = Some (Fan.is_on st)
    /\ _skip_update (entity w') = false
    /\ wire w' = wire w1
    /\ (forall key, key ∈ keys ->
          _state_attrs (entity w') !! key = Some (Fan.data_get st key))
    /\ (forall key, key ∉ keys ->
          _state_attrs (entity w') !! key = _state_attrs (entity w) !! key).
Proof. apply poll_snapshot_run. Qed.

Lemma poll_stores_the_snapshot_witness :
  let device :=
    scripted [Ok (VList [VBool true; VInt 12; VInt 430; VInt 21]);
              Ok (VList [VInt 60; VInt 80; VInt 100; VInt 60]);
              Ok (VList [VBool false; VBool false; VBool false; VBool true]);
              Ok (VList [VBool true; VStr "sleep"])] in
  exists w',
    XiaomiAirFreshDevice.async_update device fresh_Device = (Ok tt, w')
    /\ _available (entity w') = true
    /\ _state (entity w') = Some true
    /\ _state_attrs (entity w') !! "mode" = Some (VStr "sleep")
    /\ _state_attrs (entity w') !! "filter_day" = Some (VInt 100)
    /\ _state_attrs (entity w') !! "model" = Some (VStr "dmaker.airfresh.a1").
Proof.
  intros device.
  destruct (poll_stores_the_snapshot device XiaomiAirFreshDevice.properties
              (fst <$> XiaomiAirFreshDevice.AVAILABLE_ATTRIBUTES_AIRFRESH)
              fresh_Device
              (mkStatus
                 (dict (zip XiaomiAirFreshDevice.properties
                          [VBool true; VInt 12; VInt 430; VInt 21;
                           VInt 60; VInt 80; VInt 100; VInt 60;
                           VBool false; VBool false; VBool false; VBool true;
                           VBool true; VStr "sleep"])))
              (snd (XiaomiAirFreshDevice.get_status device fresh_Device))
              Sleep)
    as (w' & Hrun & Hav & Hst & _ & _ & Hin & Hout).
  - reflexivity.
  - vm_compute. reflexivity.
  - vm_compute. reflexivity.
  - repeat (constructor; [cbn; rewrite ?list_elem_of_In; cbn;
                          intuition discriminate |]).
    constructor.
  - intros key Hkey. apply list_elem_of_In in Hkey. cbn in Hkey.
    repeat (destruct Hkey as [<- | Hkey];
            [split; [apply list_elem_of_In; cbn; tauto | discriminate] |]).
    contradiction.
  - exists w'. split; [exact Hrun |]. split; [exact Hav |].
    split; [rewrite Hst; vm_compute; reflexivity |].
    split; [rewrite Hin; [vm_compute; reflexivity |
                          apply list_elem_of_In; cbn; tauto] |].
    split; [rewrite Hin; [vm_compute; reflexivity |
                          apply list_elem_of_In; cbn; tauto] |].
    rewrite Hout; [vm_compute; reflexivity |].
    rewrite list_elem_of_In. cbn. intuition discriminate.
Defined.

(** ** The property [speed] *)

(** X9.  After such a poll the property [speed] is the name of the polled
    mode when the device is on, and [None] when it is off; that name is an
    entry of the speed list and, handed back to [async_set_speed], names
    the same member. *)
Theorem speed_after_poll device (properties keys : list string)
    w st w1 (m : OperationMode) :
  _skip_update (entity w) = false ->
  Fan.get_status device properties w = (Ok st, w1) ->
  Fan.mode st = Ok m ->
  NoDup keys ->
  (forall key, key ∈ keys -> key ∈ properties /\ key <> "is_on") ->
  "mode" ∈ keys ->
  speed (entity (snd (Fan.async_update device properties
                        ((fun k => (k, k)) <$> keys) w)))
  = Ok (if Fan.is_on st then Some (OperationMode_name m) else None)
  /\ In (OperationMode_name m) OPERATION_MODES_AIRFRESH
  /\ OperationMode_getitem (title (OperationMode_name m)) = Ok m.
Proof.
  intros Hskip Hget Hm Hnd Hkeys Hmode.
  destruct (poll_snapshot_run device properties keys w st w1 m
              Hskip Hget Hm Hnd Hkeys)
    as (w' & -> & _ & Hst & _ & _ & Hin & _).
  cbn [snd]. split; [| split].
  - unfold speed. rewrite Hst.
    destruct (Fan.is_on st); [| reflexivity].
    rewrite (Hin "mode" Hmode). unfold Fan.mode in Hm. now rewrite Hm.
  - destruct m; cbn; tauto.
  - now destruct m.
Qed.

Lemma speed_after_poll_witness :
  speed (entity (snd (XiaomiAirFreshD.async_update
                        (always (Ok (VList [VBool true; VInt 12; VInt 430;
                                            VStr "auto"]))) fresh_D)))
  = Ok (Some "Auto").
Proof.
  pose (device := always (Ok (VList [VBool true; VInt 12; VInt 430;
                                     VStr "auto"]))).
  destruct (speed_after_poll device XiaomiAirFreshD.properties
              (fst <$> XiaomiAirFreshD.AVAILABLE_ATTRIBUTES_AIRFRESH) fresh_D
              (mkStatus (dict (zip XiaomiAirFreshD.properties
                                   [VBool true; VInt 12; VInt 430;
                                    VStr "auto"])))
              (snd (XiaomiAirFreshD.get_status device fresh_D)) Auto)
    as (H & _ & _).
  - reflexivity.
  - vm_compute. reflexivity.
  - vm_compute. reflexivity.
  - repeat (constructor; [cbn; rewrite ?list_elem_of_In; cbn;
                          intuition discriminate |]).
    constructor.
  - intros key Hkey. apply list_elem_of_In in Hkey. cbn in Hkey.
    repeat (destruct Hkey as [<- | Hkey];
            [split; [apply list_elem_of_In; cbn; tauto | discriminate] |]).
    contradiction.
  - apply list_elem_of_In. cbn. tauto.
  - exact H.
Defined.

(** X10.  In [XiaomiAirFreshD], an entity whose [mode] attribute is still
    the [None] of [__init__] (no poll has succeeded yet) and whose turn-on
    is accepted by the device is switched on optimistically; reading
    [speed] then raises [ValueError]. *)
Theorem D_speed_before_first_poll (S : Z) device w :
  _state_attrs (entity w) !! "mode" = Some VNone ->
  device (wire w) ("set_power", VList [VBool true]) = Ok Fan.SUCCESS ->
  speed (entity (snd (XiaomiAirFreshD.async_turn_on S device None w)))
  = Raise ValueError.
Proof.
  intros Hmode Hok. rewrite D_async_turn_on_run.
  destruct (D_power_command_accepted device
              "Turning the miio device on failed." true w Hok)
    as (w1 & -> & Hent).
  unfold speed. cbn [snd entity _state _state_attrs].
  now rewrite Hent, Hmode.
Qed.

Lemma D_speed_before_first_poll_witness :
  speed (entity (snd (XiaomiAirFreshD.async_turn_on 1
                        (always (Ok Fan.SUCCESS)) None fresh_D)))
  = Raise ValueError.
Proof.
  apply (D_speed_before_first_poll 1 (always (Ok Fan.SUCCESS)) fresh_D);
    reflexivity.
Defined.

(** ** The skip flag over time *)

Lemma extract_attributes_keys (properties : list string) (state : Status)
    (table : list (string * string)) :
  forall w pairs w',
    comprehension
      (fun kv =>
         v <- lift (Fan._extract_value_from_attribute properties state kv.2) ;;
         ret (kv.1, v)) table w = (Ok pairs, w') ->
    fst <$> pairs = fst <$> table.
Proof.
  induction table as [| [key attribute] table IH]; intros w pairs w' H.
  - injection H as <- _. reflexivity.
  - cbn [comprehension] in H. unfold bind at 1 in H. rewrite bind_lift in H.
    cbn [fst snd] in H.
    destruct (Fan._extract_value_from_attribute properties state attribute)
      as [v | e]; [| discriminate H].
    unfold ret at 1 in H. unfold bind at 1 in H.
    destruct (comprehension _ table w) as [[rest | e] w2] eqn:E;
      [| discriminate H].
    unfold ret in H. injection H as <- _.
    cbn [fmap list_fmap fst]. f_equal. exact (IH _ _ _ E).
Qed.

(** The world a poll that is not skipped leaves, against the world
    [get_status] left: the same calls on the wire, the flag clear, and the
    attributes either untouched or updated under the keys of the table. *)
Lemma async_update_polling_world device (properties : list string)
    (table : list (string * string)) w :
  _skip_update (entity w) = false ->
  let after := snd (Fan.async_update device properties table w) in
  wire after = wire (snd (Fan.get_status device properties w))
  /\ _skip_update (entity after) = false
  /\ (_state_attrs (entity after) = _state_attrs (entity w)
      \/ exists pairs,
           _state_attrs (entity after)
           = dict_update (_state_attrs (entity w)) pairs
           /\ fst <$> pairs = fst <$> table).
Proof.
  intros Hskip after.
  assert (Heq : after = snd (Fan.async_update device properties table w))
    by reflexivity.
  clearbody after.
  pose proof (get_status_keeps_entity device properties w) as Hent.
  unfold Fan.async_update, bind at 1 in Heq. unfold get_skip_update in Heq.
  rewrite Hskip in Heq.
  unfold try_except_DeviceException, bind at 1 in Heq.
  destruct (Fan.get_status device properties w) as [[st | e] w1];
    cbn [snd] in Hent |- *.
  - unfold bind at 1 in Heq. cbn [logger] in Heq. unfold bind at 1 in Heq.
    cbn [set_available with_entity] in Heq. unfold bind at 1 in Heq.
    cbn [set_state with_entity] in Heq. unfold bind at 1 in Heq.
    match type of Heq with
    | context [comprehension ?f table ?w2] =>
        destruct (extract_attributes_outcome properties st table w2)
          as (r & Hr & Hne);
        pose proof (extract_attributes_keys properties st table w2) as Hkeys;
        rewrite Hr in Heq, Hkeys
    end.
    destruct r as [pairs | e].
    + cbn in Heq. subst after. cbn. rewrite Hent, Hskip. repeat split.
      right. exists pairs. split; [reflexivity |]. exact (Hkeys _ _ eq_refl).
    + destruct e; cbn in Heq; subst after; cbn; rewrite Hent, Hskip;
        repeat split; now left.
  - destruct e; cbn in Heq; subst after; cbn; rewrite Hent, Hskip;
      repeat split; now left.
Qed.

Lemma async_update_clears_flag device (properties : list string)
    (table : list (string * string)) w :
  _skip_update (entity (snd (Fan.async_update device properties table w)))
  = false.
Proof.
  destruct (_skip_update (entity w)) eqn:Hskip.
  - now rewrite async_update_skipped.
  - now apply async_update_polling_world.
Qed.

Lemma poll_first_call device (b : list string) (bs : list (list string))
    values w :
  exists rest,
    wire (snd (poll device (b :: bs) values w))
    = wire w ++ Fan.get_prop b :: rest.
Proof.
  assert (Hext : forall bs values w,
             exists rest, wire (snd (poll device bs values w)) = wire w ++ rest).
  { clear. intros bs. induction bs as [| b bs IH]; intros values w.
    - exists []. cbn. now rewrite app_nil_r.
    - cbn [poll]. unfold Fan.send.
      destruct (device (wire w) ("get_prop", VList (VStr <$> b)))
        as [reply | e]; [| now exists [("get_prop", VList (VStr <$> b))]].
      destruct (py_iter reply) as [items | e];
        [| now exists [("get_prop", VList (VStr <$> b))]].
      destruct (IH (values ++ items)
                  (mkWorld (entity w)
                     (wire w ++ [("get_prop", VList (VStr <$> b))])
                     (journal w))) as [rest Hrest].
      exists (("get_prop", VList (VStr <$> b)) :: rest).
      rewrite Hrest. cbn [wire]. now rewrite <- app_assoc. }
  cbn [poll]. unfold Fan.send, Fan.get_prop.
  destruct (device (wire w) ("get_prop", VList (VStr <$> b))) as [reply | e];
    [| now exists []].
  destruct (py_iter reply) as [items | e]; [| now exists []].
  destruct (Hext bs (values ++ items)
              (mkWorld (entity w)
                 (wire w ++ [("get_prop", VList (VStr <$> b))]) (journal w)))
    as [rest Hrest].
  exists rest. rewrite Hrest. cbn [wire]. now rewrite <- app_assoc.
Qed.

(** A poll that is not skipped sends at least its first batch. *)
Lemma async_update_reaches_device device (p : string) (ps : list string)
    (table : list (string * string)) w :
  _skip_update (entity w) = false ->
  exists rest,
    wire (snd (Fan.async_update device (p :: ps) table w))
    = wire w ++ Fan.get_prop (take 4 (p :: ps)) :: rest.
Proof.
  intros Hskip.
  destruct (async_update_polling_world device (p :: ps) table w Hskip)
    as (-> & _).
  unfold Fan.get_status, bind. rewrite get_status_loop_poll, batches_step.
  destruct (poll_first_call device (take 4 (p :: ps))
              (batches (drop 4 (p :: ps))) [] w) as [rest Hrest].
  exists rest. rewrite <- Hrest.
  destruct (poll device _ [] w) as [[values | e] w1]; [| reflexivity].
  cbn. destruct (negb _); reflexivity.
Qed.

(** X11.  The skip flag is one-shot: whatever a poll does (skip, succeed,
    fail, raise), it leaves the flag clear, so the poll after it always
    sends its first [get_prop] batch.  An optimistic update therefore
    suppresses exactly one poll. *)
Theorem skipped_poll_is_followed_by_a_real_one device device'
    (p : string) (ps : list string) (table : list (string * string)) w :
  let w1 := snd (Fan.async_update device (p :: ps) table w) in
  _skip_update (entity w1) = false
  /\ exists rest,
       wire (snd (Fan.async_update device' (p :: ps) table w1))
       = wire w1 ++ Fan.get_prop (take 4 (p :: ps)) :: rest.
Proof.
  intros w1. split; [apply async_update_clears_flag |].
  apply async_update_reaches_device, async_update_clears_flag.
Qed.

Lemma Device_step_keeps_flag_clear (S : Z) device
    (op : Op (FanCall + ServiceCall)) w :
  _skip_update (entity w) = false ->
  _skip_update (entity (snd (Device_step S device op w))) = false.
Proof.
  intros H. destruct op as [| c]; cbn [Device_step].
  - apply async_update_clears_flag.
  - now rewrite (Device_call_keeps _skip_update).
Qed.

(** X12.  [XiaomiAirFreshDevice] never skips a poll: starting with the
    flag clear, as [__init__] leaves it, it is clear after any sequence of
    polls and commands, and the next poll sends its first batch,
    [get_prop] of [power], [pm25], [co2], [temperature_outside]. *)
Theorem Device_never_skips_a_poll (S : Z) device
    (ops : list (Op (FanCall + ServiceCall))) w :
  _skip_update (entity w) = false ->
  let w' := run_ops (Device_step S device) ops w in
  _skip_update (entity w') = false
  /\ exists rest,
       wire (snd (XiaomiAirFreshDevice.async_update device w'))
       = wire w' ++
         ("get_prop",
          VList [VStr "power"; VStr "pm25"; VStr "co2";
                 VStr "temperature_outside"]) :: rest.
Proof.
  intros H w'.
  assert (Hclear : _skip_update (entity w') = false).
  { subst w'. revert w H. induction ops as [| op ops IH]; intros w H;
      [exact H |].
    cbn [run_ops]. apply IH. now apply Device_step_keeps_flag_clear. }
  split; [exact Hclear |].
  exact (async_update_reaches_device device _ _ _ w' Hclear).
Qed.

Lemma Device_never_skips_a_poll_witness :
  let device := always (Ok Fan.SUCCESS) in
  let w' :=
    run_ops (Device_step 1 device)
      [Command (inl (TurnOn None)); Poll; Command (inr SetSoundOff);
       Command (inl TurnOff)] fresh_Device in
  _skip_update (entity w') = false
  /\ exists rest,
       wire (snd (XiaomiAirFreshDevice.async_update device w'))
       = wire w' ++
         ("get_prop",
          VList [VStr "power"; VStr "pm25"; VStr "co2";
                 VStr "temperature_outside"]) :: rest.
Proof.
  apply (Device_never_skips_a_poll 1 (always (Ok Fan.SUCCESS))
           [Command (inl (TurnOn None)); Poll; Command (inr SetSoundOff);
            Command (inl TurnOff)] fresh_Device).
  reflexivity.
Defined.

(** ** The attributes over time *)

Lemma dict_update_dom (pairs : list (string * pyval)) :
  forall d : gmap string pyval,
    (forall key, In key (fst <$> pairs) -> is_Some (d !! key)) ->
    dom (dict_update d pairs) = dom d.
Proof.
  unfold dict_update.
  induction pairs as [| [k v] pairs IH]; intros d H; [reflexivity |].
  cbn [foldl fst snd]. rewrite IH.
  - rewrite dom_insert_L.
    apply subseteq_union_1_L, singleton_subseteq_l, elem_of_dom, H.
    now left.
  - intros key Hkey. destruct (decide (k = key)) as [-> | Hne].
    + rewrite lookup_insert_eq. eauto.
    + rewrite lookup_insert_ne by exact Hne. apply H. now right.
Qed.

Lemma D_call_keeps_attrs (S : Z) device (c : FanCall) :
  keeps _state_attrs (XiaomiAirFreshD.call S device c).
Proof.
  assert (Hstate : forall s, keeps _state_attrs (set_state s))
    by (intros s w; reflexivity).
  assert (Hflag : forall b, keeps _state_attrs (set_skip_update b))
    by (intros b w; reflexivity).
  assert (Hsend : forall mask command params,
             keeps _state_attrs (XiaomiAirFreshD.send_raw_cmd device mask
                                   command params))
    by (intros; now apply keeps_send_raw_cmd).
  assert (Hoff : keeps _state_attrs (XiaomiAirFreshD.async_turn_off device)).
  { unfold XiaomiAirFreshD.async_turn_off.
    apply keeps_bind; [apply Hsend |]. intros []; step_keeps. }
  assert (Hspeed : forall speed,
             keeps _state_attrs
               (XiaomiAirFreshD.async_set_speed S device speed)).
  { intros speed. unfold XiaomiAirFreshD.async_set_speed.
    destruct (Z.eqb _ 0); [apply keeps_ret |].
    step_keeps.
    match goal with |- keeps _ (if ?c then _ else _) => destruct c end;
      step_keeps. }
  destruct c as [speed | | speed]; cbn [XiaomiAirFreshD.call].
  - unfold XiaomiAirFreshD.async_turn_on.
    apply keeps_bind.
    + destruct (Fan.given speed); step_keeps.
    + intros result. destruct (truthy result); step_keeps.
  - exact Hoff.
  - apply Hspeed.
Qed.

(** One operation leaves the key set and every key outside the table. *)
Lemma attributes_step (table : list (string * string)) (m : M unit) w :
  (_state_attrs (entity (snd (m w))) = _state_attrs (entity w)
   \/ exists pairs,
        _state_attrs (entity (snd (m w)))
        = dict_update (_state_attrs (entity w)) pairs
        /\ fst <$> pairs = fst <$> table) ->
  (forall key, In key (fst <$> table) ->
               is_Some (_state_attrs (entity w) !! key)) ->
  dom (_state_attrs (entity (snd (m w)))) = dom (_state_attrs (entity w))
  /\ forall key, ~ In key (fst <$> table) ->
       _state_attrs (entity (snd (m w))) !! key
       = _state_attrs (entity w) !! key.
Proof.
  intros [-> | (pairs & -> & Hkeys)] Hdom; [now split |].
  split.
  - apply dict_update_dom. now rewrite Hkeys.
  - intros key Hnot. apply dict_update_lookup_other. now rewrite Hkeys.
Qed.

Lemma run_ops_attributes {C} (step : Op C -> M unit)
    (table : list (string * string)) :
  (forall op w,
      _state_attrs (entity (snd (step op w))) = _state_attrs (entity w)
      \/ exists pairs,
           _state_attrs (entity (snd (step op w)))
           = dict_update (_state_attrs (entity w)) pairs
           /\ fst <$> pairs = fst <$> table) ->
  forall ops w,
    (forall key, In key (fst <$> table) ->
                 is_Some (_state_attrs (entity w) !! key)) ->
    dom (_state_attrs (entity (run_ops step ops w)))
    = dom (_state_attrs (entity w))
    /\ forall key, ~ In key (fst <$> table) ->
         _state_attrs (entity (run_ops step ops w)) !! key
         = _state_attrs (entity w) !! key.
Proof.
  intros Hstep ops. induction ops as [| op ops IH]; intros w Hdom;
    [now split |].
  cbn [run_ops].
  destruct (attributes_step table (step op) w (Hstep op w) Hdom)
    as [Hd Hother].
  destruct (IH (snd (step op w))) as [Hd' Hother'].
  - intros key Hkey. apply elem_of_dom. rewrite Hd. apply elem_of_dom.
    now apply Hdom.
  - split; [now rewrite Hd', Hd |].
    intros key Hnot. now rewrite Hother', Hother.
Qed.

(** X13.  On both platforms the attribute dictionary keeps its key set
    over any sequence of polls and commands, once it holds the keys of the
    attribute table (as after [__init__]), and the attributes outside the
    table, [model] among them, never change. *)
Theorem attributes_keep_their_keys (S : Z) device w :
  (forall (ops : list (Op (FanCall + ServiceCall))),
      (forall key,
          In key (fst <$> XiaomiAirFreshDevice.AVAILABLE_ATTRIBUTES_AIRFRESH) ->
          is_Some (_state_attrs (entity w) !! key)) ->
      let after := entity (run_ops (Device_step S device) ops w) in
      dom (_state_attrs after) = dom (_state_attrs (entity w))
      /\ _state_attrs after !! "model" = _state_attrs (entity w) !! "model")
  /\ (forall (ops : list (Op FanCall)),
        (forall key,
            In key (fst <$> XiaomiAirFreshD.AVAILABLE_ATTRIBUTES_AIRFRESH) ->
            is_Some (_state_attrs (entity w) !! key)) ->
        let after := entity (run_ops (D_step S device) ops w) in
        dom (_state_attrs after) = dom (_state_attrs (entity w))
        /\ _state_attrs after !! "model" = _state_attrs (entity w) !! "model").
Proof.
  split; intros ops Hdom after; subst after.
  - destruct (run_ops_attributes (Device_step S device)
                XiaomiAirFreshDevice.AVAILABLE_ATTRIBUTES_AIRFRESH) with
      (ops := ops) (w := w) as [Hd Hother]; [| exact Hdom |].
    + intros [| c] w0; cbn [Device_step].
      * destruct (_skip_update (entity w0)) eqn:Hskip.
        -- left. unfold XiaomiAirFreshDevice.async_update.
           now rewrite async_update_skipped.
        -- now apply async_update_polling_world.
      * left. now apply (Device_call_keeps _state_attrs).
    + split; [exact Hd |]. apply Hother. cbn. intuition discriminate.
  - destruct (run_ops_attributes (D_step S device)
                XiaomiAirFreshD.AVAILABLE_ATTRIBUTES_AIRFRESH) with
      (ops := ops) (w := w) as [Hd Hother]; [| exact Hdom |].
    + intros [| c] w0; cbn [D_step].
      * destruct (_skip_update (entity w0)) eqn:Hskip.
        -- left. unfold XiaomiAirFreshD.async_update.
           now rewrite async_update_skipped.
        -- now apply async_update_polling_world.
      * left. apply D_call_keeps_attrs.
    + split; [exact Hd |]. apply Hother. cbn. intuition discriminate.
Qed.

Lemma attributes_keep_their_keys_witness :
  let device :=
    scripted [Ok Fan.SUCCESS;
              Ok (VList [VBool true; VInt 12; VInt 430; VStr "auto"])] in
  let after :=
    entity (run_ops (D_step 1 device)
              [Command TurnOff; Poll; Poll; Command (SetSpeed "Sleep"); Poll]
              fresh_D) in
  dom (_state_attrs after) = dom (_state_attrs (entity fresh_D))
  /\ _state_attrs after !! "model" = Some (VStr "dmaker.airfresh.a1").
Proof.
  intros device after.
  destruct (attributes_keep_their_keys 1 device fresh_D) as [_ H].
  apply (H [Command TurnOff; Poll; Poll; Command (SetSpeed "Sleep"); Poll]).
  intros key Hkey. cbn in Hkey.
  repeat (destruct Hkey as [<- | Hkey]; [vm_compute; eauto |]).
  contradiction.
Defined.

(** ** Platform setup *)

Lemma substring_is_short_prefix (n : nat) :
  forall s : string,
    String.length (String.substring 0 n s) <= n
    /\ String.prefix (String.substring 0 n s) s = true.
Proof.
  induction n as [| n IH]; intros [| c s]; cbn; try (split; [lia | easy]).
  destruct (IH s) as [Hlen Hpre]. split; [lia |].
  destruct (Ascii.ascii_dec c c) as [_ | Hne]; [exact Hpre | contradiction].
Qed.


(** X15.  Two set-ups for the same host: the registry then holds the
    second device under that host, whatever the first one was, while both
    entities have been handed to the host, in order. *)
Theorem setup_same_host_twice (table : list (string * string))
    (to_register : list (string * string)) (hass : Hass)
    (config1 config2 : Config) :
  CONF_HOST config1 = CONF_HOST config2 ->
  String.prefix "dmaker.airfresh.a1"
    (default "dmaker.airfresh.a1" (CONF_MODEL config1)) = true ->
  String.prefix "dmaker.airfresh.a1"
    (default "dmaker.airfresh.a1" (CONF_MODEL config2)) = true ->
  let hass1 := snd (async_setup_platform table to_register hass config1) in
  let hass2 := snd (async_setup_platform table to_register hass1 config2) in
  exists registry device1 device2,
    hass_data hass2 = Some registry
    /\ registry !! CONF_HOST config1 = Some device2
    /\ _device device2 = (CONF_HOST config2, CONF_TOKEN config2)
    /\ _name device2 = CONF_NAME config2
    /\ _device device1 = (CONF_HOST config1, CONF_TOKEN config1)
    /\ added_entities hass2
       = added_entities hass ++ [(device1, true); (device2, true)]
    /\ size registry = size (<[CONF_HOST config1 := device1]>
                               (default ∅ (hass_data hass))).
Proof.
  intros Hhost H1 H2 hass1 hass2. subst hass2 hass1.
  unfold async_setup_platform. rewrite H1. cbn [snd hass_data default].
  rewrite H2. cbn [snd hass_data added_entities default].
  set (device1 :=
         new_device table (CONF_NAME config1)
           (CONF_HOST config1, CONF_TOKEN config1)
           (default "dmaker.airfresh.a1" (CONF_MODEL config1)) None).
  set (device2 :=
         new_device table (CONF_NAME config2)
           (CONF_HOST config2, CONF_TOKEN config2)
           (default "dmaker.airfresh.a1" (CONF_MODEL config2)) None).
  exists (<[CONF_HOST config2 := device2]>
            (<[CONF_HOST config1 := device1]> (default ∅ (hass_data hass)))),
    device1, device2.
  split; [reflexivity |]. rewrite <- Hhost.
  split; [apply lookup_insert_eq |].
  split; [now rewrite Hhost |]. split; [reflexivity |]. split; [reflexivity |].
  split; [now rewrite <- app_assoc |].
  now rewrite insert_insert_eq, !map_size_insert.
Qed.

Lemma setup_same_host_twice_witness :
  let config1 := mkConfig "192.168.1.20" "0123456789abcdef0123456789abcdef"
                          "Bedroom" None in
  let config2 := mkConfig "192.168.1.20" "ffffffffffffffffffffffffffffffff"
                          "Kitchen" (Some "dmaker.airfresh.a1") in
  let hass2 :=
    snd (D_setup (snd (D_setup (mkHass None [] [] []) config1)) config2) in
  exists registry device2,
    hass_data hass2 = Some registry
    /\ registry !! "192.168.1.20" = Some device2
    /\ _name device2 = "Kitchen"
    /\ length (added_entities hass2) = 2.
Proof.
  intros config1 config2 hass2.
  destruct (setup_same_host_twice
              XiaomiAirFreshD.AVAILABLE_ATTRIBUTES_AIRFRESH []
              (mkHass None [] [] []) config1 config2)
    as (registry & device1 & device2 & Hdata & Hlook & _ & Hname & _ & Hadd & _).
  - reflexivity.
  - reflexivity.
  - reflexivity.
  - exists registry, device2. split; [exact Hdata |].
    split; [exact Hlook |]. split; [exact Hname |].
    subst hass2. unfold D_setup. now rewrite Hadd.
Defined.

(** X16.  Whatever its outcome, [async_setup_platform] only appends to the
    log, and what it hands to the logger is the host, the model, and of
    the token a prefix of at most five characters. *)
Theorem setup_logs_a_token_prefix (table : list (string * string))
    (to_register : list (string * string)) (hass : Hass) (config : Config) :
  let shown := String.substring 0 5 (CONF_TOKEN config) in
  String.length shown <= 5
  /\ String.prefix shown (CONF_TOKEN config) = true
  /\ exists new,
       setup_log (snd (async_setup_platform table to_register hass config))
       = setup_log hass ++ new
       /\ Forall (fun record =>
                    Forall (fun arg =>
                              arg = CONF_HOST config
                              \/ arg = shown
                              \/ arg = default "dmaker.airfresh.a1"
                                         (CONF_MODEL config))
                           (setup_log_args record)) new.
Proof.
  intros shown.
  destruct (substring_is_short_prefix 5 (CONF_TOKEN config)) as [Hlen Hpre].
  split; [exact Hlen |]. split; [exact Hpre |].
  unfold async_setup_platform.
  destruct (String.prefix "dmaker.airfresh.a1" _); cbn [snd setup_log].
  - eexists. split; [reflexivity |].
    repeat constructor; cbn; subst shown; tauto.
  - eexists. split; [symmetry; apply app_assoc |].
    repeat constructor; cbn; subst shown; tauto.
Qed.

(** ** A reply of the wrong size *)

Lemma zip_take_names {A B} (names : list A) :
  forall values : list B,
    zip names values = zip names (take (length names) values).
Proof.
  induction names as [| n names IH]; intros [| v values]; cbn;
    try reflexivity.
  now rewrite <- IH.
Qed.

(** X17.  When all batches of a poll are answered, the only trace of a
    wrong number of values is one debug record giving both counts, written
    exactly when they differ; [get_status] still returns a snapshot, and
    values beyond the number of names do not enter it. *)
Theorem get_status_count_mismatch device (properties : list string) w
    (replies : list (list pyval)) :
  Forall2 delivers
    (answers device (wire w) (Fan.get_prop <$> batches properties)) replies ->
  let values := concat replies in
  let run := Fan.get_status device properties w in
  fst run
  = Ok (mkStatus (dict (zip properties (take (length properties) values))))
  /\ journal (snd run)
     = journal w ++
       (if Nat.eqb (length properties) (length values) then []
        else [mkLog DEBUG
                "Count (%s) of requested properties does not match the count (%s) of received values."
                [LogVal (VInt (Z.of_nat (length properties)));
                 LogVal (VInt (Z.of_nat (length values)))]]).
Proof.
  intros H values run. subst run values.
  unfold Fan.get_status, bind.
  rewrite get_status_loop_poll, (poll_delivers _ _ _ _ replies H).
  cbn [app]. rewrite <- zip_take_names.
  destruct (Nat.eqb (length properties) (length (concat replies)));
    cbn; [now rewrite app_nil_r | split; reflexivity].
Qed.

Lemma get_status_count_mismatch_witness :
  let run :=
    XiaomiAirFreshD.get_status
      (always (Ok (VList [VBool false; VInt 7; VInt 400; VStr "off";
                          VInt 99])))
      fresh_D in
  fst run
  = Ok (mkStatus (dict (zip XiaomiAirFreshD.properties
                            [VBool false; VInt 7; VInt 400; VStr "off"])))
  /\ journal (snd run)
     = [mkLog DEBUG
          "Count (%s) of requested properties does not match the count (%s) of received values."
          [LogVal (VInt 4); LogVal (VInt 5)]].
Proof.
  apply (get_status_count_mismatch
           (always (Ok (VList [VBool false; VInt 7; VInt 400; VStr "off";
                               VInt 99])))
           XiaomiAirFreshD.properties fresh_D
           [[VBool false; VInt 7; VInt 400; VStr "off"; VInt 99]]).
  repeat constructor. eexists. split; reflexivity.
Defined.
